(** * Container state and lifecycle control (lib/portlayer/exec/base.go)

    A shallow embedding of [containerBase] and its methods [refresh],
    [updates], [startGuestProgram], [start], [stop], [kill], [shutdown],
    [poweroff] and [waitForPowerState].

    The methods talk to the vSphere infrastructure through govmomi.  The
    infrastructure is a type class of answer functions over an abstract
    world; every round trip is recorded in a call trace, so that statements
    such as "power-off is never invoked" are statements about that trace.
    A Go [error] result is an [option error] ([None] is [nil]); a run-time
    panic (nil dereference, index out of range) is the [Panic] result.
    Logging ([log.Infof], [trace.Begin]) has no influence on results and is
    left out. *)

From Stdlib Require Import ZArith String List Bool Lia.
From stdpp Require Import base gmap strings list.
Import ListNotations.
Local Open Scope string_scope.
Local Open Scope Z_scope.

(** ** Data model *)

(** [types.VirtualMachinePowerState] *)
Inductive VirtualMachinePowerState :=
| VirtualMachinePowerStatePoweredOff
| VirtualMachinePowerStatePoweredOn
| VirtualMachinePowerStateSuspended.

Definition VirtualMachinePowerState_eqb (a b : VirtualMachinePowerState) : bool :=
  match a, b with
  | VirtualMachinePowerStatePoweredOff, VirtualMachinePowerStatePoweredOff => true
  | VirtualMachinePowerStatePoweredOn, VirtualMachinePowerStatePoweredOn => true
  | VirtualMachinePowerStateSuspended, VirtualMachinePowerStateSuspended => true
  | _, _ => false
  end.

(** [types.LocalizableMessage] *)
Record LocalizableMessage := { Key : string; Message : string }.

(** [types.BaseMethodFault]: the two shapes [poweroff] switches on, and
    every other fault, told apart by its type name. *)
Inductive MethodFault :=
| InvalidPowerState (ExistingState RequestedState : VirtualMachinePowerState)
| GenericVmConfigFault (FaultMessage : list LocalizableMessage) (Reason : string)
| OtherFault (TypeName : string).

(** Go [error] values met in this file: [NotYetExistError], govmomi's
    [task.Error] (a localized method fault), and plain message errors
    ([errors.New], [fmt.Errorf], and whatever else a collaborator hands
    back). *)
Inductive error :=
| NotYetExistError (ID : string)
| task_Error (Fault : MethodFault) (LocalizedMessage : string)
| errorString (s : string).

(** The [Error() string] method. *)
Definition Error (e : error) : string :=
  match e with
  | NotYetExistError ID => ID ++ " is not completely created"
  | task_Error _ m => m
  | errorString s => s
  end.

(** [ctx.Err()] of package context: [nil], [Canceled] or
    [DeadlineExceeded]. *)
Inductive ContextError := Canceled | DeadlineExceeded.

(** [time.Duration]: int64 nanoseconds. *)
Definition Duration := Z.
Definition wrap64 (z : Z) : Z := (z + 2 ^ 63) mod 2 ^ 64 - 2 ^ 63.
Definition Second : Duration := 1000000000.

(** [ssh.SIGKILL], [ssh.SIGTERM] *)
Definition SIGKILL : string := "KILL".
Definition SIGTERM : string := "TERM".

(** [executor.SessionConfig]: command, arguments, configured stop signal. *)
Record SessionConfig := {
  Path : string;
  Args : list string;
  StopSignal : string
}.

(** Modelled from the spec: the declaration of [executor.ExecutorConfig] is
    not among the sources.  After the spec's data model it carries the
    container identifier and a mapping from session id to session record.
    The lookup of an id is partial: an absent id yields no record ([None],
    a nil reference in Go), and reading a field through it panics. *)
Record ExecutorConfig := {
  ID : string;
  Sessions : gmap string SessionConfig
}.

(** [&executor.ExecutorConfig{}] *)
Definition ExecutorConfig_zero : ExecutorConfig :=
  {| ID := ""; Sessions := ∅ |}.

(** A Go slice: nil ([None]) or a sequence of elements, possibly empty.
    [elems] gives the elements a [range] over the slice visits: none for
    the nil slice, as for the empty one. *)
Definition slice (A : Type) : Type := option (list A).

Definition elems {A : Type} (s : slice A) : list A :=
  match s with
  | Some l => l
  | None => []
  end.

(** One entry of the metadata blob ([types.OptionValue]). *)
Record OptionValue := { OptKey : string; OptValue : string }.

(** [types.VirtualMachineConfigInfo], [types.VirtualMachineRuntimeInfo].
    [ExtraConfig] is a slice and may be nil. *)
Record VirtualMachineConfigInfo := {
  Name : string;
  ExtraConfig : slice OptionValue
}.

Record VirtualMachineRuntimeInfo := {
  PowerState : VirtualMachinePowerState
}.

(** [mo.VirtualMachine] as filled by a property fetch of "config" and
    "runtime": [Config] is a pointer, [Runtime] a value. *)
Record mo_VirtualMachine := {
  mo_Config : option VirtualMachineConfigInfo;
  mo_Runtime : VirtualMachineRuntimeInfo
}.

(** [vm.VirtualMachine]: the instance handle, identified by its managed
    object reference. *)
Record VirtualMachine := { Reference : string }.

(** [containerBase].  [ExecConfig] is a pointer in the source; every
    [containerBase] built in this file ([newBase], [updates]) allocates it,
    so the record holds the pointee.  [Config], [Runtime] and [vm] may be
    nil. *)
Record containerBase := {
  ExecConfig : ExecutorConfig;
  Config : option VirtualMachineConfigInfo;
  Runtime : option VirtualMachineRuntimeInfo;
  vm : option VirtualMachine
}.

(** ** Infrastructure calls *)

(** One constructor per round trip to the infrastructure. *)
Inductive Call :=
| Properties_call (v : VirtualMachine) (props : list string)
| PowerOn_call (v : VirtualMachine)
| PowerOff_call (v : VirtualMachine)
| ProcessManager_call (v : VirtualMachine)
| StartProgram_call (v : VirtualMachine) (Username ProgramPath Arguments : string)
| WaitForKeyInExtraConfig_call (v : VirtualMachine) (key : string)
| WaitForPowerState_call (v : VirtualMachine) (max : Duration)
                         (state : VirtualMachinePowerState).

(** What the infrastructure answers, in a world [World] that the answers
    may change.  [PowerOn] and [PowerOff] stand for
    [vm.WaitForResult] around the respective task; [context_Err] reads
    [Err()] of the context most recently built by [context.WithTimeout]. *)
Class Infrastructure (World : Type) := {
  Properties : VirtualMachine -> list string -> World ->
               (error + mo_VirtualMachine) * World;
  PowerOn : VirtualMachine -> World -> option error * World;
  PowerOff : VirtualMachine -> World -> option error * World;
  ProcessManager : VirtualMachine -> World -> option error * World;
  StartProgram : VirtualMachine -> string -> string -> string -> World ->
                 option error * World;
  WaitForKeyInExtraConfig : VirtualMachine -> string -> World ->
                            (string * option error) * World;
  WaitForPowerState : VirtualMachine -> Duration -> VirtualMachinePowerState ->
                      World -> option error * World;
  context_Err : World -> option ContextError
}.

(** The metadata codec of package extraconfig. *)
Class MetadataCodec := {
  Decode : list OptionValue -> ExecutorConfig -> ExecutorConfig;
  CalculateKeys : ExecutorConfig -> string -> string -> list string
}.

(** ** Results, state and the monad of a method call *)

Inductive PanicKind := nil_dereference | index_out_of_range.

Inductive Res (A : Type) :=
| Ret (a : A)
| Panic (k : PanicKind).
Arguments Ret {A} a.
Arguments Panic {A} k.

Record St (World : Type) := mkSt {
  world : World;
  calls : list Call
}.
Arguments mkSt {World} world calls.
Arguments world {World} s.
Arguments calls {World} s.

Definition M (World A : Type) : Type := St World -> Res A * St World.

Definition ret {W A} (a : A) : M W A := fun s => (Ret a, s).

Definition panic {W A} (k : PanicKind) : M W A := fun s => (Panic k, s).

Definition bind {W A B} (m : M W A) (k : A -> M W B) : M W B :=
  fun s => match m s with
           | (Ret a, s') => k a s'
           | (Panic p, s') => (Panic p, s')
           end.

Notation "x <~ m ;; k" := (bind m (fun x => k))
  (at level 100, m at next level, right associativity).

(** A round trip: record it, then let the world answer. *)
Definition call {W A} (ev : Call) (f : W -> A * W) : M W A :=
  fun s => let (a, w') := f (world s) in
           (Ret a, mkSt w' (calls s ++ [ev])).

(** A read of the world that is no round trip. *)
Definition observe {W A} (f : W -> A) : M W A :=
  fun s => (Ret (f (world s)), s).

(** ** Formatting helpers of package fmt *)

(** [%s] of a [[]string]. *)
Definition fmt_strings (l : list string) : string :=
  "[" ++ String.concat " " l ++ "]".

(** ** The methods of containerBase *)

Section Methods.
Context {World : Type} `{Infra : Infrastructure World} `{Codec : MetadataCodec}.

(** Package constant whose declaration is elsewhere in the package: the
    fault-message key of a power-off invalidated by a guest shutdown. *)
Variable vmNotSuspendedKey : string.

(** [updates] returns the pair (new base, error).  The source of the
    decoding, [vmomi.OptionValueSource], looks keys up among the elements
    of the blob. *)
Definition updates (c : containerBase)
  : M World (option containerBase * option error) :=
  match vm c with
  | None => ret (None, Some (NotYetExistError (ID (ExecConfig c))))
  | Some v =>
      r <~ call (Properties_call v ["config"; "runtime"])
                (Properties v ["config"; "runtime"]) ;;
      match r with
      | inl err => ret (None, Some err)
      | inr o =>
          match mo_Config o with
          | None => panic nil_dereference
          | Some cfg =>
              ret (Some {| vm := Some v;
                           Config := Some cfg;
                           Runtime := Some (mo_Runtime o);
                           ExecConfig := Decode (elems (ExtraConfig cfg))
                                                ExecutorConfig_zero |},
                   None)
          end
      end
  end.

(** [refresh] overwrites the receiver ([*c = *base]); the first component
    of the result is the receiver after the call. *)
Definition refresh (c : containerBase) (s : St World)
  : containerBase * (Res (option error) * St World) :=
  match updates c s with
  | (Ret (_, Some err), s') => (c, (Ret (Some err), s'))
  | (Ret (Some base, None), s') => (base, (Ret None, s'))
  | (Ret (None, None), s') => (c, (Panic nil_dereference, s'))
  | (Panic k, s') => (c, (Panic k, s'))
  end.

Definition startGuestProgram (c : containerBase) (name args : string)
  : M World (option error) :=
  match vm c with
  | None => ret (Some (NotYetExistError (ID (ExecConfig c))))
  | Some v =>
      err <~ call (ProcessManager_call v) (ProcessManager v) ;;
      match err with
      | Some e => ret (Some e)
      | None =>
          call (StartProgram_call v (ID (ExecConfig c)) name args)
               (StartProgram v (ID (ExecConfig c)) name args)
      end
  end.

Definition waitForPowerState (c : containerBase) (max : Duration)
           (state : VirtualMachinePowerState) : M World (bool * option error) :=
  match vm c with
  | None => panic nil_dereference
  | Some v =>
      err <~ call (WaitForPowerState_call v max state)
                  (WaitForPowerState v max state) ;;
      match err with
      | Some e =>
          terr <~ observe context_Err ;;
          ret (match terr with Some _ => true | None => false end, Some e)
      | None => ret (false, None)
      end
  end.

Definition start (c : containerBase) : M World (option error) :=
  match vm c with
  | None => ret (Some (NotYetExistError (ID (ExecConfig c))))
  | Some v =>
      err <~ call (PowerOn_call v) (PowerOn v) ;;
      match err with
      | Some e => ret (Some e)
      | None =>
          let keys := CalculateKeys (ExecConfig c)
                        ("Sessions." ++ ID (ExecConfig c) ++ ".Started") "" in
          match keys !! 0%nat with
          | None => panic index_out_of_range
          | Some key =>
              r <~ call (WaitForKeyInExtraConfig_call v key)
                        (WaitForKeyInExtraConfig v key) ;;
              let (detail, err) := r in
              match err with
              | Some e =>
                  ret (Some (errorString
                         ("unable to wait for process launch status: " ++ Error e)))
              | None =>
                  if negb (String.eqb detail "true") then ret (Some (errorString detail))
                  else ret None
              end
          end
      end
  end.

Definition poweroff (c : containerBase) : M World (option error) :=
  match vm c with
  | None => ret (Some (NotYetExistError (ID (ExecConfig c))))
  | Some v =>
      err <~ call (PowerOff_call v) (PowerOff v) ;;
      match err with
      | Some (task_Error (InvalidPowerState existing _) _ as e) =>
          if VirtualMachinePowerState_eqb existing VirtualMachinePowerStatePoweredOff
          then ret None
          else ret (Some e)
      | Some (task_Error (GenericVmConfigFault fm _) _ as e) =>
          if (0 <? Z.of_nat (length fm)) &&
             match fm !! 0%nat with
             | Some m => String.eqb (Key m) vmNotSuspendedKey
             | None => false
             end
          then ret None
          else ret (Some e)
      | Some e => ret (Some e)
      | None => ret None
      end
  end.

(** The bounded wait of [shutdown]: ten seconds unless [waitTime] points
    to a positive number of seconds. *)
Definition shutdown_wait (waitTime : option Z) : Duration :=
  match waitTime with
  | Some w => if 0 <? w then wrap64 (w * Second) else 10 * Second
  | None => 10 * Second
  end.

(** The slice [stop] of [shutdown]. *)
Definition stop_signals (cs : SessionConfig) : list string :=
  let stop := [StopSignal cs; SIGKILL] in
  match stop !! 0%nat with
  | Some sig0 => if String.eqb sig0 "" then <[0%nat := SIGTERM]> stop else stop
  | None => stop
  end.

(** The [for _, sig := range stop] loop of [shutdown] over the signals
    still to try, followed by the final [return]. *)
Fixpoint shutdown_range (c : containerBase) (wait : Duration)
         (stop sigs : list string) : M World (option error) :=
  match sigs with
  | [] =>
      ret (Some (errorString
             ("failed to shutdown " ++ ID (ExecConfig c) ++
              " via kill signals " ++ fmt_strings stop)))
  | sig :: rest =>
      let msg := "sending kill -" ++ sig ++ " " ++ ID (ExecConfig c) in
      err <~ startGuestProgram c "kill" sig ;;
      match err with
      | Some e => ret (Some (errorString (msg ++ ": " ++ Error e)))
      | None =>
          r <~ waitForPowerState c wait VirtualMachinePowerStatePoweredOff ;;
          let (timeout, err) := r in
          match err with
          | None => ret None
          | Some e => if negb timeout then ret (Some e)
                      else shutdown_range c wait stop rest
          end
      end
  end.

Definition shutdown (c : containerBase) (waitTime : option Z)
  : M World (option error) :=
  match vm c with
  | None => ret (Some (NotYetExistError (ID (ExecConfig c))))
  | Some _ =>
      let wait := shutdown_wait waitTime in
      match Sessions (ExecConfig c) !! ID (ExecConfig c) with
      | None => panic nil_dereference
      | Some cs =>
          let stop := stop_signals cs in
          shutdown_range c wait stop stop
      end
  end.

Definition stop (c : containerBase) (waitTime : option Z)
  : M World (option error) :=
  match vm c with
  | None => ret (Some (NotYetExistError (ID (ExecConfig c))))
  | Some _ =>
      err <~ shutdown c waitTime ;;
      match err with
      | None => ret None
      | Some _ => poweroff c
      end
  end.

Definition kill (c : containerBase) : M World (option error) :=
  match vm c with
  | None => ret (Some (NotYetExistError (ID (ExecConfig c))))
  | Some _ =>
      let wait := 10 * Second in
      let sig := SIGKILL in
      err <~ startGuestProgram c "kill" sig ;;
      match err with
      | None =>
          r <~ waitForPowerState c wait VirtualMachinePowerStatePoweredOff ;;
          let (timeout, err) := r in
          match err with
          | None => ret None
          | Some _ => poweroff c
          end
      | Some _ => poweroff c
      end
  end.

End Methods.

(** ** Construction *)

Section Construction.
Context `{Codec : MetadataCodec}.

(** [newBase]: the working copy of the configuration is decoded only
    when there is a config whose blob is not nil ([c != nil &&
    c.ExtraConfig != nil]); an empty blob that is not nil is decoded. *)
Definition newBase (v : option VirtualMachine)
           (c : option VirtualMachineConfigInfo)
           (r : option VirtualMachineRuntimeInfo) : containerBase :=
  let base := {| ExecConfig := ExecutorConfig_zero;
                 Config := c; Runtime := r; vm := v |} in
  match c with
  | Some cfg =>
      match ExtraConfig cfg with
      | Some blob =>
          {| ExecConfig := Decode blob (ExecConfig base);
             Config := Config base; Runtime := Runtime base; vm := vm base |}
      | None => base
      end
  | None => base
  end.

End Construction.

(** ** Vocabulary of the statements *)

(** The signals handed to the guest's kill program in a trace. *)
Definition dispatched (tr : list Call) : list string :=
  flat_map (fun ev => match ev with
                      | StartProgram_call _ _ _ args => [args]
                      | _ => []
                      end) tr.

Definition is_PowerOff (ev : Call) : bool :=
  match ev with PowerOff_call _ => true | _ => false end.

(** No hard power-off in a trace. *)
Definition no_PowerOff (tr : list Call) : Prop :=
  forallb (fun ev => negb (is_PowerOff ev)) tr = true.

(** The identifier-carrying error of a container without instance handle. *)
Definition NotYetExist (c : containerBase) : option error :=
  Some (NotYetExistError (ID (ExecConfig c))).

(** The state after one more round trip [ev] answered by world [w]. *)
Definition after {World : Type} (s : St World) (ev : Call) (w : World)
  : St World :=
  mkSt w (calls s ++ [ev]).

(** The two fault shapes that the spec classifies as idempotent success:
    the instance was already powered off, or the power-off task was
    invalidated by a concurrent guest shutdown (first fault message keyed
    [vmNotSuspendedKey]). *)
Inductive idempotent_fault (vmNotSuspendedKey : string) : error -> Prop :=
| already_powered_off requested msg :
    idempotent_fault vmNotSuspendedKey
      (task_Error (InvalidPowerState VirtualMachinePowerStatePoweredOff requested) msg)
| guest_shutdown m others reason msg :
    Key m = vmNotSuspendedKey ->
    idempotent_fault vmNotSuspendedKey
      (task_Error (GenericVmConfigFault (m :: others) reason) msg).

(** The first signal of the sequence: the configured stop signal, or TERM
    when none is configured. *)
Definition first_signal (cs : SessionConfig) : string :=
  if String.eqb (StopSignal cs) "" then SIGTERM else StopSignal cs.

(** The error of a failed dispatch of [sig]. *)
Definition dispatch_error (c : containerBase) (sig : string) (e : error) : error :=
  errorString (("sending kill -" ++ sig ++ " " ++ ID (ExecConfig c)) ++ ": " ++ Error e).

(** The aggregate error once every signal of [stop] has timed out. *)
Definition exhausted_error (c : containerBase) (stop : list string) : error :=
  errorString ("failed to shutdown " ++ ID (ExecConfig c) ++
               " via kill signals " ++ fmt_strings stop).

(** The round trips of one turn of the loop of [shutdown]: obtain the
    process manager, start "kill" with the signal, wait for power-off. *)
Definition attempt_script (v : VirtualMachine) (id : string) (wait : Duration)
           (sig : string) : list Call :=
  [ProcessManager_call v;
   StartProgram_call v id "kill" sig;
   WaitForPowerState_call v wait VirtualMachinePowerStatePoweredOff].

(** The round trips of the loop when every signal of [sigs] times out. *)
Definition signals_script (v : VirtualMachine) (id : string) (wait : Duration)
           (sigs : list string) : list Call :=
  flat_map (attempt_script v id wait) sigs.

(** The longest run of [kill]: one turn with KILL and ten seconds, then
    the hard power-off. *)
Definition kill_script (v : VirtualMachine) (id : string) : list Call :=
  (attempt_script v id (10 * Second) SIGKILL ++ [PowerOff_call v])%list.

(** The last round trip behind a result [ro] of stop or kill, whose wait
    is bounded by [wait]: for nil, a wait that observed power-off, or a
    power-off whose task succeeded or failed with an idempotent fault; for
    an error, a power-off whose task failed with that very error. *)
Definition last_round_trip {World : Type} `{Infra : Infrastructure World}
           (vmNotSuspendedKey : string) (v : VirtualMachine) (wait : Duration)
           (s0 : St World) (w : World) (ro : option error) (s' : St World) : Prop :=
  match ro with
  | None =>
      (WaitForPowerState v wait VirtualMachinePowerStatePoweredOff (world s0)
       = (None, w) /\
       s' = after s0 (WaitForPowerState_call v wait
                        VirtualMachinePowerStatePoweredOff) w) \/
      (s' = after s0 (PowerOff_call v) w /\
       (PowerOff v (world s0) = (None, w) \/
        exists e, PowerOff v (world s0) = (Some e, w) /\
                  idempotent_fault vmNotSuspendedKey e))
  | Some e =>
      PowerOff v (world s0) = (Some e, w) /\ s' = after s0 (PowerOff_call v) w
  end.

(** The snapshot [c] with other cached infrastructure state. *)
Definition with_cached (c : containerBase)
           (cfg : option VirtualMachineConfigInfo)
           (rt : option VirtualMachineRuntimeInfo) : containerBase :=
  {| ExecConfig := ExecConfig c; Config := cfg; Runtime := rt; vm := vm c |}.

(** The range of a Go [int32]. *)
Definition int32_range (z : Z) : Prop := - 2 ^ 31 <= z < 2 ^ 31.

(** ** A scripted infrastructure

    Concrete worlds on which the methods can be run: the world holds a
    script of answers, consumed one per round trip.  An answer of the wrong
    kind, or an exhausted script, makes the call fail. *)

Module Mock.

Inductive Answer :=
| answer_error (e : option error)
| answer_properties (r : error + mo_VirtualMachine)
| answer_key (detail : string) (e : option error)
| answer_wait (e : option error) (ctx : option ContextError).

Record World := mkWorld {
  script : list Answer;
  bounded_ctx : option ContextError
}.

Definition unscripted : error := errorString "unscripted call".

Definition rest (w : World) : World :=
  mkWorld (tail (script w)) (bounded_ctx w).

Definition next_error (w : World) : option error * World :=
  match script w with
  | answer_error e :: _ => (e, rest w)
  | _ => (Some unscripted, rest w)
  end.

Definition next_properties (w : World) : (error + mo_VirtualMachine) * World :=
  match script w with
  | answer_properties r :: _ => (r, rest w)
  | _ => (inl unscripted, rest w)
  end.

Definition next_key (w : World) : (string * option error) * World :=
  match script w with
  | answer_key d e :: _ => ((d, e), rest w)
  | _ => (("", Some unscripted), rest w)
  end.

Definition next_wait (w : World) : option error * World :=
  match script w with
  | answer_wait e ctx :: l => (e, mkWorld l ctx)
  | _ => (Some unscripted, rest w)
  end.

#[global] Instance infra : Infrastructure World := {|
  Properties := fun _ _ => next_properties;
  PowerOn := fun _ => next_error;
  PowerOff := fun _ => next_error;
  ProcessManager := fun _ => next_error;
  StartProgram := fun _ _ _ _ => next_error;
  WaitForKeyInExtraConfig := fun _ _ => next_key;
  WaitForPowerState := fun _ _ _ => next_wait;
  context_Err := bounded_ctx
|}.

(** A toy codec: the blob entry "id" gives the identifier, and the entry
    "stopSignal" the stop signal of the session stored under it. *)
Definition decode_entry (dest : ExecutorConfig) (o : OptionValue) : ExecutorConfig :=
  if String.eqb (OptKey o) "id" then
    {| ID := OptValue o; Sessions := Sessions dest |}
  else if String.eqb (OptKey o) "stopSignal" then
    {| ID := ID dest;
       Sessions := <[ID dest := {| Path := "/bin/sh"; Args := [];
                                    StopSignal := OptValue o |}]> (Sessions dest) |}
  else dest.

#[global] Instance codec : MetadataCodec := {|
  Decode := fun blob dest => fold_left decode_entry blob dest;
  CalculateKeys := fun _ field prefix => [prefix ++ "guestinfo." ++ field]
|}.

Definition start_state (answers : list Answer) : St World :=
  mkSt (mkWorld answers None) [].

Definition handle : VirtualMachine := {| Reference := "vm-101" |}.

Definition session (sig : string) : SessionConfig :=
  {| Path := "/bin/sh"; Args := []; StopSignal := sig |}.

(** A live container "c1" whose session has the given stop signal. *)
Definition container (sig : string) : containerBase :=
  {| ExecConfig := {| ID := "c1"; Sessions := {[ "c1" := session sig ]} |};
     Config := None; Runtime := None; vm := Some handle |}.

(** The same container with no session record under its identifier. *)
Definition container_without_session : containerBase :=
  {| ExecConfig := {| ID := "c1"; Sessions := ∅ |};
     Config := None; Runtime := None; vm := Some handle |}.

(** A container not yet created on the infrastructure. *)
Definition container_not_created : containerBase :=
  {| ExecConfig := {| ID := "c1"; Sessions := {[ "c1" := session "" ]} |};
     Config := None; Runtime := None; vm := None |}.

Definition notSuspended : string := "msg.suspend.powerOff.notsuspended".

End Mock.

(** ** Scenarios on the scripted infrastructure *)

Definition powered_off : VirtualMachinePowerState :=
  VirtualMachinePowerStatePoweredOff.

(** Script entries: a round trip that succeeds, a wait that ends because
    the deadline elapsed, and a wait that ends because the caller cancelled
    the parent context. *)
Definition ok : Mock.Answer := Mock.answer_error None.

Definition deadline_exceeded : error := errorString "context deadline exceeded".

Definition context_canceled : error := errorString "context canceled".

Definition wait_times_out : Mock.Answer :=
  Mock.answer_wait (Some deadline_exceeded) (Some DeadlineExceeded).

Definition wait_cancelled : Mock.Answer :=
  Mock.answer_wait (Some context_canceled) (Some Canceled).

(** The guest ignores both signals. *)
Definition unresponsive_guest : St Mock.World :=
  Mock.start_state [ok; ok; wait_times_out; ok; ok; wait_times_out].

(** The guest powers off on TERM. *)
Definition obedient_guest : St Mock.World :=
  Mock.start_state [ok; ok; Mock.answer_wait None None].

(** The guest agent cannot be reached; the power-off task succeeds. *)
Definition agent_unavailable : error := errorString "agent unavailable".

Definition unreachable_agent : St Mock.World :=
  Mock.start_state [Mock.answer_error (Some agent_unavailable); ok].

(** A fetched configuration whose blob names the container and its stop
    signal, and the answer of a property fetch that carries it. *)
Definition fetched_config : VirtualMachineConfigInfo :=
  {| Name := "c1";
     ExtraConfig := Some [ {| OptKey := "id"; OptValue := "c1" |};
                           {| OptKey := "stopSignal"; OptValue := "INT" |} ] |}.

Definition fetched : mo_VirtualMachine :=
  {| mo_Config := Some fetched_config;
     mo_Runtime := {| PowerState := VirtualMachinePowerStatePoweredOn |} |}.

(** ** Properties of the methods *)

Ltac run := unfold bind, call, ret, panic, observe; simpl.

Lemma dispatched_app (a b : list Call) :
  dispatched (a ++ b) = (dispatched a ++ dispatched b)%list.
Proof. unfold dispatched. apply flat_map_app. Qed.

Lemma no_PowerOff_app (a b : list Call) :
  no_PowerOff a -> no_PowerOff b -> no_PowerOff (a ++ b).
Proof.
  unfold no_PowerOff. intros Ha Hb. rewrite forallb_app, Ha, Hb. reflexivity.
Qed.

Section Correctness.
Context {World : Type} `{Infra : Infrastructure World} `{Codec : MetadataCodec}.
Variable vmNotSuspendedKey : string.

(** C5: on a snapshot whose instance handle is nil, refresh, start, stop,
    kill and shutdown each return the NotYetExist error carrying the
    container identifier, and leave the state (world and call trace) as it
    was: no round trip to the infrastructure is made.  refresh also leaves
    the receiver as it was. *)
Theorem not_created_NotYetExist (c : containerBase) (waitTime : option Z)
        (s : St World) :
  vm c = None ->
  refresh c s = (c, (Ret (NotYetExist c), s)) /\
  start c s = (Ret (NotYetExist c), s) /\
  stop vmNotSuspendedKey c waitTime s = (Ret (NotYetExist c), s) /\
  kill vmNotSuspendedKey c s = (Ret (NotYetExist c), s) /\
  shutdown c waitTime s = (Ret (NotYetExist c), s).
Proof.
  intros Hvm.
  unfold refresh, updates, start, stop, kill, shutdown, NotYetExist.
  rewrite Hvm. repeat split.
Qed.

(** C8 (as amended): waitForPowerState returns (false, nil) exactly when
    the underlying wait succeeds; when the wait fails with err it returns
    (b, err) where b is true exactly when the bounded context is done at
    that moment (its Err() is non-nil: the deadline elapsed or the parent
    context was cancelled), and false otherwise. *)
Theorem waitForPowerState_flag (c : containerBase) (v : VirtualMachine)
        (max : Duration) (state : VirtualMachinePowerState) (s : St World) :
  vm c = Some v ->
  (forall w, WaitForPowerState v max state (world s) = (None, w) ->
     waitForPowerState c max state s
     = (Ret (false, None), after s (WaitForPowerState_call v max state) w)) /\
  (forall e w, WaitForPowerState v max state (world s) = (Some e, w) ->
     exists b,
       waitForPowerState c max state s
       = (Ret (b, Some e), after s (WaitForPowerState_call v max state) w) /\
       (b = true <-> context_Err w <> None)) /\
  (forall b s', waitForPowerState c max state s = (Ret (b, None), s') ->
     b = false /\ fst (WaitForPowerState v max state (world s)) = None).
Proof.
  intros Hvm. unfold waitForPowerState, after. rewrite Hvm. run.
  split; [| split].
  - intros w Hw. rewrite Hw. reflexivity.
  - intros e w Hw. rewrite Hw. simpl.
    destruct (context_Err w) eqn:Hctx.
    + exists true. split; [reflexivity | split; congruence].
    + exists false. split; [reflexivity | split; congruence].
  - intros b s' Hrun.
    destruct (WaitForPowerState v max state (world s)) as [[e|] w];
      simpl in Hrun; [congruence |].
    split; [congruence | reflexivity].
Qed.

(** C4: with a live handle poweroff makes exactly one power-off round trip;
    it returns nil when the task succeeds, and also when the task fails
    with one of the two idempotent fault shapes; every other failure, task
    fault or not, is returned unchanged. *)
Theorem poweroff_idempotent (c : containerBase) (v : VirtualMachine) (s : St World) :
  vm c = Some v ->
  (forall w, PowerOff v (world s) = (None, w) ->
     poweroff vmNotSuspendedKey c s = (Ret None, after s (PowerOff_call v) w)) /\
  (forall e w, PowerOff v (world s) = (Some e, w) ->
     idempotent_fault vmNotSuspendedKey e ->
     poweroff vmNotSuspendedKey c s = (Ret None, after s (PowerOff_call v) w)) /\
  (forall e w, PowerOff v (world s) = (Some e, w) ->
     ~ idempotent_fault vmNotSuspendedKey e ->
     poweroff vmNotSuspendedKey c s = (Ret (Some e), after s (PowerOff_call v) w)).
Proof.
  intros Hvm. unfold poweroff, after. rewrite Hvm. run.
  split; [| split].
  - intros w Hw. rewrite Hw. reflexivity.
  - intros e w Hw Hid. rewrite Hw.
    destruct Hid as [requested msg | m others reason msg Hkey]; simpl.
    + reflexivity.
    + rewrite Hkey, String.eqb_refl. reflexivity.
  - intros e w Hw Hnot. rewrite Hw.
    destruct e as [id | [existing requested | fm reason | name] msg | msg];
      simpl; try reflexivity.
    + destruct existing; simpl; try reflexivity.
      exfalso. apply Hnot. constructor.
    + destruct fm as [| m others]; simpl; [reflexivity |].
      destruct (String.eqb_spec (Key m) vmNotSuspendedKey) as [Heq | Hne];
        [| reflexivity].
      exfalso. apply Hnot. constructor. exact Heq.
Qed.

(** C7: after a successful power-on and a successful wait for the
    readiness key, start returns nil exactly when the reported value is the
    string "true"; for any other value it returns an error whose text is
    that value, verbatim. *)
Theorem start_reports_guest_detail (c : containerBase) (v : VirtualMachine)
        (s : St World) (w1 w2 : World) (key : string) (keys : list string)
        (detail : string) :
  vm c = Some v ->
  PowerOn v (world s) = (None, w1) ->
  CalculateKeys (ExecConfig c) ("Sessions." ++ ID (ExecConfig c) ++ ".Started") ""
  = key :: keys ->
  WaitForKeyInExtraConfig v key w1 = ((detail, None), w2) ->
  exists s',
    calls s' = (calls s ++ [PowerOn_call v; WaitForKeyInExtraConfig_call v key])%list /\
    world s' = w2 /\
    (detail = "true" -> start c s = (Ret None, s')) /\
    (detail <> "true" ->
       start c s = (Ret (Some (errorString detail)), s') /\
       Error (errorString detail) = detail) /\
    (fst (start c s) = Ret None <-> detail = "true").
Proof.
  intros Hvm Hon Hkeys Hwait.
  exists (mkSt w2 (calls s ++ [PowerOn_call v; WaitForKeyInExtraConfig_call v key])).
  unfold start. rewrite Hvm. run. rewrite Hon, Hkeys. simpl. rewrite Hwait.
  rewrite <- app_assoc. simpl.
  destruct (String.eqb_spec detail "true") as [Heq | Hne]; simpl.
  - repeat split; try reflexivity; try congruence.
  - repeat split; try reflexivity; try congruence; intros; try discriminate.
Qed.

(** *** Runs of the helpers, and what they add to the trace *)

Lemma startGuestProgram_run (c : containerBase) (v : VirtualMachine)
      (name args : string) (s : St World) :
  vm c = Some v ->
  startGuestProgram c name args s =
  match ProcessManager v (world s) with
  | (Some e, w1) => (Ret (Some e), after s (ProcessManager_call v) w1)
  | (None, w1) =>
      let (r, w2) := StartProgram v (ID (ExecConfig c)) name args w1 in
      (Ret r, after (after s (ProcessManager_call v) w1)
                    (StartProgram_call v (ID (ExecConfig c)) name args) w2)
  end.
Proof.
  intros Hvm. unfold startGuestProgram, after. rewrite Hvm. run.
  destruct (ProcessManager v (world s)) as [[e|] w1]; reflexivity.
Qed.

Lemma startGuestProgram_trace (c : containerBase) (v : VirtualMachine)
      (name args : string) (s s' : St World) (r : Res (option error)) :
  vm c = Some v ->
  startGuestProgram c name args s = (r, s') ->
  exists ro delta,
    r = Ret ro /\ calls s' = (calls s ++ delta)%list /\ no_PowerOff delta /\
    dispatched delta `prefix_of` [args] /\
    (ro = None -> dispatched delta = [args]).
Proof.
  intros Hvm Hrun. rewrite (startGuestProgram_run _ v) in Hrun by exact Hvm.
  destruct (ProcessManager v (world s)) as [[e|] w1].
  - inversion Hrun; subst; clear Hrun.
    exists (Some e), [ProcessManager_call v]. simpl.
    repeat split; [apply prefix_nil | discriminate].
  - destruct (StartProgram v (ID (ExecConfig c)) name args w1) as [ro w2].
    inversion Hrun; subst; clear Hrun.
    exists ro, [ProcessManager_call v;
                StartProgram_call v (ID (ExecConfig c)) name args].
    simpl. rewrite <- app_assoc.
    split; [reflexivity |]. split; [reflexivity |]. split; [reflexivity |].
    split; [reflexivity | intros _; reflexivity].
Qed.

Lemma waitForPowerState_trace (c : containerBase) (v : VirtualMachine)
      (max : Duration) (state : VirtualMachinePowerState) (s s' : St World)
      (r : Res (bool * option error)) :
  vm c = Some v ->
  waitForPowerState c max state s = (r, s') ->
  exists b err w,
    r = Ret (b, err) /\ s' = after s (WaitForPowerState_call v max state) w.
Proof.
  intros Hvm. unfold waitForPowerState, after. rewrite Hvm. run.
  destruct (WaitForPowerState v max state (world s)) as [[e|] w]; simpl;
    intros Hrun; inversion Hrun; subst; eauto.
Qed.

Lemma waitForPowerState_nil_flag (c : containerBase) (v : VirtualMachine)
      (max : Duration) (state : VirtualMachinePowerState) (s s' : St World)
      (b : bool) :
  vm c = Some v ->
  waitForPowerState c max state s = (Ret (b, None), s') ->
  b = false.
Proof.
  intros Hvm. unfold waitForPowerState. rewrite Hvm. run.
  destruct (WaitForPowerState v max state (world s)) as [[e|] w]; simpl;
    intros Hrun; congruence.
Qed.

Lemma poweroff_trace (c : containerBase) (v : VirtualMachine) (s s' : St World)
      (r : Res (option error)) :
  vm c = Some v ->
  poweroff vmNotSuspendedKey c s = (r, s') ->
  exists ro w, r = Ret ro /\ s' = after s (PowerOff_call v) w.
Proof.
  intros Hvm. unfold poweroff, after. rewrite Hvm. run.
  destruct (PowerOff v (world s)) as [[e|] w]; simpl.
  - destruct e as [id | [existing requested | fm reason | name] msg | msg];
      simpl; try (intros Hrun; inversion Hrun; subst; eauto; fail).
    + destruct (VirtualMachinePowerState_eqb _ _);
        intros Hrun; inversion Hrun; subst; eauto.
    + destruct (_ && _); intros Hrun; inversion Hrun; subst; eauto.
  - intros Hrun; inversion Hrun; subst; eauto.
Qed.

(** C6: refresh has three outcomes, each fixed by what the one property
    fetch answers, and none of them updates part of the receiver.  When the
    fetch answers with properties whose config is present, the result is
    nil and the receiver is replaced by a container with the same handle
    whose Config, Runtime and ExecConfig all come from that answer [o]
    (ExecConfig decoded from the metadata blob of its config).  Without
    handle, or when the fetch fails, that error is returned and the
    receiver is the one held before; without handle no fetch is made.  Only
    when the fetch answers with properties whose config is nil does refresh
    panic (a nil dereference), and the receiver is then also the one held
    before. *)
Theorem refresh_atomic (c : containerBase) (s : St World) :
  exists c' r s',
    refresh c s = (c', (r, s')) /\
    ((r = Ret None /\
      exists v o cfg,
        vm c = Some v /\
        Properties v ["config"; "runtime"] (world s) = (inr o, world s') /\
        calls s' = (calls s ++ [Properties_call v ["config"; "runtime"]])%list /\
        mo_Config o = Some cfg /\
        c' = {| ExecConfig := Decode (elems (ExtraConfig cfg)) ExecutorConfig_zero;
                Config := Some cfg;
                Runtime := Some (mo_Runtime o);
                vm := vm c |}) \/
     (exists e,
        r = Ret (Some e) /\ c' = c /\
        ((vm c = None /\ e = NotYetExistError (ID (ExecConfig c)) /\ s' = s) \/
         (exists v,
            vm c = Some v /\
            Properties v ["config"; "runtime"] (world s) = (inl e, world s') /\
            calls s' = (calls s ++ [Properties_call v ["config"; "runtime"]])%list))) \/
     (r = Panic nil_dereference /\ c' = c /\
      exists v o,
        vm c = Some v /\
        Properties v ["config"; "runtime"] (world s) = (inr o, world s') /\
        calls s' = (calls s ++ [Properties_call v ["config"; "runtime"]])%list /\
        mo_Config o = None)).
Proof.
  unfold refresh, updates.
  destruct (vm c) as [v|] eqn:Hvm.
  - run. destruct (Properties v ["config"; "runtime"] (world s)) as [[e | o] w] eqn:Hp.
    + do 3 eexists. split; [reflexivity |]. right; left.
      exists e. repeat split. right. exists v. simpl. auto.
    + destruct (mo_Config o) as [cfg|] eqn:Hcfg.
      * do 3 eexists. split; [reflexivity |]. left. split; [reflexivity |].
        exists v, o, cfg. simpl. auto.
      * do 3 eexists. split; [reflexivity |]. right; right.
        split; [reflexivity |]. split; [reflexivity |].
        exists v, o. simpl. auto.
  - run. do 3 eexists. split; [reflexivity |]. right; left.
    eexists. repeat split. left. auto.
Qed.

(** The loop of shutdown never panics on a live handle; the signals it
    dispatches are an initial part of the signals it was given, in order,
    and it makes no power-off round trip. *)
Lemma shutdown_range_trace (c : containerBase) (v : VirtualMachine)
      (wait : Duration) (stop : list string) :
  vm c = Some v ->
  forall (sigs : list string) (s s' : St World) (r : Res (option error)),
    shutdown_range c wait stop sigs s = (r, s') ->
    exists ro delta,
      r = Ret ro /\ calls s' = (calls s ++ delta)%list /\ no_PowerOff delta /\
      dispatched delta `prefix_of` sigs.
Proof.
  intros Hvm sigs. induction sigs as [| sig rest IH]; intros s s' r Hrun.
  - simpl in Hrun. inversion Hrun; subst.
    eexists _, []. rewrite app_nil_r. repeat split. apply prefix_nil.
  - simpl in Hrun. unfold bind at 1 in Hrun.
    destruct (startGuestProgram c "kill" sig s) as [r1 s1] eqn:Hsgp.
    destruct (startGuestProgram_trace _ _ _ _ _ _ _ Hvm Hsgp)
      as (ro1 & d1 & -> & Hc1 & Hn1 & Hp1 & Hd1).
    destruct ro1 as [e|].
    + inversion Hrun; subst.
      eexists _, d1.
      split; [reflexivity |]. split; [exact Hc1 |]. split; [exact Hn1 |].
      etransitivity; [exact Hp1 |]. apply prefix_cons, prefix_nil.
    + unfold bind at 1 in Hrun.
      destruct (waitForPowerState c wait VirtualMachinePowerStatePoweredOff s1)
        as [r2 s2] eqn:Hw.
      destruct (waitForPowerState_trace _ _ _ _ _ _ _ Hvm Hw)
        as (b & err & w & -> & ->).
      assert (Hpre : forall tl : list Call,
                 dispatched tl `prefix_of` rest ->
                 dispatched (d1 ++ WaitForPowerState_call v wait
                                     VirtualMachinePowerStatePoweredOff :: tl)
                 `prefix_of` sig :: rest).
      { intros tl Htl. rewrite dispatched_app, (Hd1 eq_refl). simpl.
        apply prefix_cons. exact Htl. }
      assert (Hno : forall tl : list Call,
                 no_PowerOff tl ->
                 no_PowerOff (d1 ++ WaitForPowerState_call v wait
                                      VirtualMachinePowerStatePoweredOff :: tl)).
      { intros tl Htl. apply no_PowerOff_app; [exact Hn1 | exact Htl]. }
      destruct err as [e|]; [destruct b |].
      * apply IH in Hrun. destruct Hrun as (ro & d2 & -> & Hc2 & Hn2 & Hp2).
        exists ro, (d1 ++ WaitForPowerState_call v wait
                            VirtualMachinePowerStatePoweredOff :: d2)%list.
        split; [reflexivity |]. split; [| split; [apply Hno, Hn2 | apply Hpre, Hp2]].
        rewrite Hc2. unfold after. simpl. rewrite Hc1.
        rewrite <- !app_assoc. reflexivity.
      * inversion Hrun; subst.
        exists (Some e), (d1 ++ [WaitForPowerState_call v wait
                                   VirtualMachinePowerStatePoweredOff])%list.
        split; [reflexivity |].
        split; [| split; [apply Hno; reflexivity | apply Hpre, prefix_nil]].
        unfold after. simpl. rewrite Hc1, <- app_assoc. reflexivity.
      * inversion Hrun; subst.
        exists None, (d1 ++ [WaitForPowerState_call v wait
                               VirtualMachinePowerStatePoweredOff])%list.
        split; [reflexivity |].
        split; [| split; [apply Hno; reflexivity | apply Hpre, prefix_nil]].
        unfold after. simpl. rewrite Hc1, <- app_assoc. reflexivity.
Qed.

(** *** shutdown *)

Lemma stop_signals_eq (cs : SessionConfig) :
  stop_signals cs = [first_signal cs; SIGKILL].
Proof.
  unfold stop_signals, first_signal. simpl.
  destruct (String.eqb (StopSignal cs) ""); reflexivity.
Qed.

Lemma shutdown_run (c : containerBase) (v : VirtualMachine) (cs : SessionConfig)
      (waitTime : option Z) :
  vm c = Some v ->
  Sessions (ExecConfig c) !! ID (ExecConfig c) = Some cs ->
  shutdown c waitTime
  = shutdown_range c (shutdown_wait waitTime) [first_signal cs; SIGKILL]
                   [first_signal cs; SIGKILL].
Proof.
  intros Hvm Hcs. unfold shutdown. rewrite Hvm, Hcs, stop_signals_eq. reflexivity.
Qed.

(** One turn of the loop, by the outcome of the dispatch and of the wait. *)
Lemma shutdown_range_dispatch_failed (c : containerBase) (wait : Duration)
      (stop rest : list string) (sig : string) (s s1 : St World) (e : error) :
  startGuestProgram c "kill" sig s = (Ret (Some e), s1) ->
  shutdown_range c wait stop (sig :: rest) s = (Ret (Some (dispatch_error c sig e)), s1).
Proof. intros Hd. simpl. unfold bind. rewrite Hd. reflexivity. Qed.

Lemma shutdown_range_powered_off (c : containerBase) (wait : Duration)
      (stop rest : list string) (sig : string) (s s1 s2 : St World) (b : bool) :
  startGuestProgram c "kill" sig s = (Ret None, s1) ->
  waitForPowerState c wait VirtualMachinePowerStatePoweredOff s1 = (Ret (b, None), s2) ->
  shutdown_range c wait stop (sig :: rest) s = (Ret None, s2).
Proof. intros Hd Hw. simpl. unfold bind. rewrite Hd, Hw. reflexivity. Qed.

Lemma shutdown_range_wait_failed (c : containerBase) (wait : Duration)
      (stop rest : list string) (sig : string) (s s1 s2 : St World) (e : error) :
  startGuestProgram c "kill" sig s = (Ret None, s1) ->
  waitForPowerState c wait VirtualMachinePowerStatePoweredOff s1
  = (Ret (false, Some e), s2) ->
  shutdown_range c wait stop (sig :: rest) s = (Ret (Some e), s2).
Proof. intros Hd Hw. simpl. unfold bind. rewrite Hd, Hw. reflexivity. Qed.

Lemma shutdown_range_timed_out (c : containerBase) (wait : Duration)
      (stop rest : list string) (sig : string) (s s1 s2 : St World) (e : error) :
  startGuestProgram c "kill" sig s = (Ret None, s1) ->
  waitForPowerState c wait VirtualMachinePowerStatePoweredOff s1
  = (Ret (true, Some e), s2) ->
  shutdown_range c wait stop (sig :: rest) s = shutdown_range c wait stop rest s2.
Proof. intros Hd Hw. simpl. unfold bind. rewrite Hd, Hw. reflexivity. Qed.

(** C1 (as amended): on a snapshot with a live handle and a session record
    under its identifier, shutdown works through the sequence
    [configured-stop-signal-or-TERM; KILL] in that order and makes no
    power-off round trip.  For each signal: a failed dispatch ends shutdown
    at once with an error whose text is "sending kill -SIG ID: " followed
    by the text of the dispatch error; an observed power-off ends it at
    once with nil; a wait failure that is not flagged as a timeout is
    returned as it is; a timeout moves on to the next signal.  When the
    wait after KILL times out too, the result is the aggregate error
    "failed to shutdown ID via kill signals [SIG KILL]".  In every case the
    final state is the state right after the last step named, so nothing
    further is dispatched. *)
Theorem shutdown_escalation (c : containerBase) (v : VirtualMachine)
        (cs : SessionConfig) (waitTime : option Z) (s : St World) :
  vm c = Some v ->
  Sessions (ExecConfig c) !! ID (ExecConfig c) = Some cs ->
  let sig1 := first_signal cs in
  let dispatch := fun sig => startGuestProgram c "kill" sig in
  let await := waitForPowerState c (shutdown_wait waitTime)
                                 VirtualMachinePowerStatePoweredOff in
  stop_signals cs = [sig1; SIGKILL] /\
  (forall r s', shutdown c waitTime s = (r, s') ->
     exists ro delta,
       r = Ret ro /\ calls s' = (calls s ++ delta)%list /\
       dispatched delta `prefix_of` [sig1; SIGKILL] /\ no_PowerOff delta) /\
  (forall e s1, dispatch sig1 s = (Ret (Some e), s1) ->
     shutdown c waitTime s = (Ret (Some (dispatch_error c sig1 e)), s1)) /\
  (forall s1 b s2,
     dispatch sig1 s = (Ret None, s1) -> await s1 = (Ret (b, None), s2) ->
     shutdown c waitTime s = (Ret None, s2)) /\
  (forall s1 e s2,
     dispatch sig1 s = (Ret None, s1) -> await s1 = (Ret (false, Some e), s2) ->
     shutdown c waitTime s = (Ret (Some e), s2)) /\
  (forall s1 e s2,
     dispatch sig1 s = (Ret None, s1) -> await s1 = (Ret (true, Some e), s2) ->
     (forall e' s3, dispatch SIGKILL s2 = (Ret (Some e'), s3) ->
        shutdown c waitTime s = (Ret (Some (dispatch_error c SIGKILL e')), s3)) /\
     (forall s3 b s4,
        dispatch SIGKILL s2 = (Ret None, s3) -> await s3 = (Ret (b, None), s4) ->
        shutdown c waitTime s = (Ret None, s4)) /\
     (forall s3 e' s4,
        dispatch SIGKILL s2 = (Ret None, s3) ->
        await s3 = (Ret (false, Some e'), s4) ->
        shutdown c waitTime s = (Ret (Some e'), s4)) /\
     (forall s3 e' s4,
        dispatch SIGKILL s2 = (Ret None, s3) ->
        await s3 = (Ret (true, Some e'), s4) ->
        shutdown c waitTime s
        = (Ret (Some (exhausted_error c [sig1; SIGKILL])), s4))).
Proof.
  intros Hvm Hcs sig1 dispatch await. subst dispatch await.
  rewrite (shutdown_run c v cs) by assumption. fold sig1.
  split; [apply stop_signals_eq |].
  split.
  { intros r s' Hrun.
    destruct (shutdown_range_trace c v _ _ Hvm _ _ _ _ Hrun)
      as (ro & delta & -> & Hc & Hn & Hp).
    exists ro, delta. auto. }
  split; [intros; eapply shutdown_range_dispatch_failed; eassumption |].
  split; [intros; eapply shutdown_range_powered_off; eassumption |].
  split; [intros; eapply shutdown_range_wait_failed; eassumption |].
  intros s1 e s2 Hd Hw.
  rewrite (shutdown_range_timed_out _ _ _ _ _ _ _ _ _ Hd Hw).
  split; [intros; eapply shutdown_range_dispatch_failed; eassumption |].
  split; [intros; eapply shutdown_range_powered_off; eassumption |].
  split; [intros; eapply shutdown_range_wait_failed; eassumption |].
  intros s3 e' s4 Hd' Hw'.
  rewrite (shutdown_range_timed_out _ _ _ _ _ _ _ _ _ Hd' Hw'). reflexivity.
Qed.

(** C9: on a live handle, shutdown reads the stop signal through the
    session record found under the container identifier.  Without such a
    record the read is a nil dereference: shutdown panics before any round
    trip.  With a record shutdown always returns.  So shutdown panics
    exactly when the record is absent. *)
Theorem shutdown_needs_session (c : containerBase) (v : VirtualMachine)
        (waitTime : option Z) (s : St World) :
  vm c = Some v ->
  (Sessions (ExecConfig c) !! ID (ExecConfig c) = None ->
   shutdown c waitTime s = (Panic nil_dereference, s)) /\
  (forall cs, Sessions (ExecConfig c) !! ID (ExecConfig c) = Some cs ->
     exists ro s', shutdown c waitTime s = (Ret ro, s')) /\
  ((exists k, fst (shutdown c waitTime s) = Panic k) <->
   Sessions (ExecConfig c) !! ID (ExecConfig c) = None).
Proof.
  intros Hvm.
  assert (Hnone : Sessions (ExecConfig c) !! ID (ExecConfig c) = None ->
                  shutdown c waitTime s = (Panic nil_dereference, s)).
  { intros Hcs. unfold shutdown. rewrite Hvm, Hcs. reflexivity. }
  assert (Hsome : forall cs,
             Sessions (ExecConfig c) !! ID (ExecConfig c) = Some cs ->
             exists ro s', shutdown c waitTime s = (Ret ro, s')).
  { intros cs Hcs.
    destruct (shutdown c waitTime s) as [r s'] eqn:Hrun.
    rewrite (shutdown_run c v cs) in Hrun by assumption.
    destruct (shutdown_range_trace c v _ _ Hvm _ _ _ _ Hrun)
      as (ro & delta & -> & _).
    eauto. }
  split; [exact Hnone |]. split; [exact Hsome |].
  split.
  - intros [k Hk].
    destruct (Sessions (ExecConfig c) !! ID (ExecConfig c)) as [cs|] eqn:Hcs;
      [| reflexivity].
    destruct (Hsome cs eq_refl) as (ro & s' & Hrun).
    rewrite Hrun in Hk. discriminate.
  - intros Hcs. exists nil_dereference. rewrite (Hnone Hcs). reflexivity.
Qed.

(** C10: shutdown replaces the first signal by TERM only when the
    configured stop signal is the empty string, and keeps the sequence as
    it is otherwise.  With KILL configured the sequence is [KILL; KILL]:
    when both waits time out, KILL has been dispatched twice and the
    aggregate error names both. *)
Theorem shutdown_repeats_KILL (c : containerBase) (v : VirtualMachine)
        (cs : SessionConfig) (waitTime : option Z) (s : St World) :
  vm c = Some v ->
  Sessions (ExecConfig c) !! ID (ExecConfig c) = Some cs ->
  let dispatch := fun sig => startGuestProgram c "kill" sig in
  let await := waitForPowerState c (shutdown_wait waitTime)
                                 VirtualMachinePowerStatePoweredOff in
  (StopSignal cs = "" -> stop_signals cs = [SIGTERM; SIGKILL]) /\
  (StopSignal cs <> "" -> stop_signals cs = [StopSignal cs; SIGKILL]) /\
  (StopSignal cs = SIGKILL ->
   stop_signals cs = [SIGKILL; SIGKILL] /\
   forall s1 e1 s2 s3 e2 s4,
     dispatch SIGKILL s = (Ret None, s1) -> await s1 = (Ret (true, Some e1), s2) ->
     dispatch SIGKILL s2 = (Ret None, s3) -> await s3 = (Ret (true, Some e2), s4) ->
     shutdown c waitTime s
     = (Ret (Some (exhausted_error c [SIGKILL; SIGKILL])), s4) /\
     exists delta,
       calls s4 = (calls s ++ delta)%list /\
       dispatched delta = [SIGKILL; SIGKILL]).
Proof.
  intros Hvm Hcs dispatch await. subst dispatch await.
  split; [| split].
  - intros Hsig. rewrite stop_signals_eq. unfold first_signal. rewrite Hsig.
    reflexivity.
  - intros Hsig. rewrite stop_signals_eq. unfold first_signal.
    destruct (String.eqb_spec (StopSignal cs) ""); [contradiction | reflexivity].
  - intros Hsig.
    assert (Hfirst : first_signal cs = SIGKILL).
    { unfold first_signal. rewrite Hsig. reflexivity. }
    split; [rewrite stop_signals_eq, Hfirst; reflexivity |].
    intros s1 e1 s2 s3 e2 s4 Hd1 Hw1 Hd2 Hw2.
    split.
    + rewrite (shutdown_run c v cs) by assumption. rewrite Hfirst.
      rewrite (shutdown_range_timed_out _ _ _ _ _ _ _ _ _ Hd1 Hw1).
      rewrite (shutdown_range_timed_out _ _ _ _ _ _ _ _ _ Hd2 Hw2).
      reflexivity.
    + destruct (startGuestProgram_trace _ _ _ _ _ _ _ Hvm Hd1)
        as (ro1 & d1 & Hr1 & Hc1 & _ & _ & Hs1).
      destruct (waitForPowerState_trace _ _ _ _ _ _ _ Hvm Hw1)
        as (b1 & err1 & w1 & _ & ->).
      destruct (startGuestProgram_trace _ _ _ _ _ _ _ Hvm Hd2)
        as (ro2 & d2 & Hr2 & Hc2 & _ & _ & Hs2).
      destruct (waitForPowerState_trace _ _ _ _ _ _ _ Hvm Hw2)
        as (b2 & err2 & w2 & _ & ->).
      inversion Hr1; subst ro1. inversion Hr2; subst ro2.
      set (wc := WaitForPowerState_call v (shutdown_wait waitTime)
                                        VirtualMachinePowerStatePoweredOff) in *.
      exists (d1 ++ wc :: d2 ++ [wc])%list. split.
      * unfold after. simpl. rewrite Hc2. unfold after. simpl. rewrite Hc1.
        rewrite <- !app_assoc. reflexivity.
      * rewrite dispatched_app, (Hs1 eq_refl). simpl.
        rewrite dispatched_app, (Hs2 eq_refl). reflexivity.
Qed.

(** *** stop and kill *)

(** C2: on a live handle stop first runs shutdown.  When shutdown returns
    nil, stop returns nil in the very state shutdown ended in, and the
    calls made contain no power-off.  When shutdown returns an error, stop
    is the hard power-off run from there: one power-off round trip whose
    outcome, not the shutdown error, is the result. *)
Theorem stop_falls_back_to_poweroff (c : containerBase) (v : VirtualMachine)
        (waitTime : option Z) (s : St World) :
  vm c = Some v ->
  (forall s', shutdown c waitTime s = (Ret None, s') ->
     stop vmNotSuspendedKey c waitTime s = (Ret None, s') /\
     exists delta, calls s' = (calls s ++ delta)%list /\ no_PowerOff delta) /\
  (forall e s', shutdown c waitTime s = (Ret (Some e), s') ->
     stop vmNotSuspendedKey c waitTime s = poweroff vmNotSuspendedKey c s' /\
     exists ro w,
       stop vmNotSuspendedKey c waitTime s
       = (Ret ro, after s' (PowerOff_call v) w)).
Proof.
  intros Hvm. split.
  - intros s' Hrun. split.
    + unfold stop. rewrite Hvm. unfold bind. rewrite Hrun. reflexivity.
    + unfold shutdown in Hrun. rewrite Hvm in Hrun.
      destruct (Sessions (ExecConfig c) !! ID (ExecConfig c)) as [cs|];
        [| discriminate].
      destruct (shutdown_range_trace c v _ _ Hvm _ _ _ _ Hrun)
        as (ro & delta & _ & Hc & Hn & _).
      eauto.
  - intros e s' Hrun.
    assert (Hstop : stop vmNotSuspendedKey c waitTime s
                    = poweroff vmNotSuspendedKey c s').
    { unfold stop. rewrite Hvm. unfold bind. rewrite Hrun. reflexivity. }
    split; [exact Hstop |]. rewrite Hstop.
    destruct (poweroff vmNotSuspendedKey c s') as [r s2] eqn:Hoff.
    destruct (poweroff_trace _ _ _ _ _ Hvm Hoff) as (ro & w & -> & ->).
    eauto.
Qed.

(** C3: on a live handle kill dispatches KILL and nothing else (the
    signals in the calls it makes are at most the single KILL).  It returns
    nil through the signal path only when the wait observed power-off; when
    the dispatch fails, or the wait fails for whatever reason, timeout or
    not, kill is the hard power-off run from there.  Hence a nil result of
    kill means that the wait confirmed power-off or that a power-off round
    trip was made and poweroff returned nil. *)
Theorem kill_forces_poweroff (c : containerBase) (v : VirtualMachine)
        (s : St World) :
  vm c = Some v ->
  let dispatch := startGuestProgram c "kill" SIGKILL in
  let await := waitForPowerState c (10 * Second)
                                 VirtualMachinePowerStatePoweredOff in
  (forall e s1, dispatch s = (Ret (Some e), s1) ->
     kill vmNotSuspendedKey c s = poweroff vmNotSuspendedKey c s1) /\
  (forall s1 b e s2,
     dispatch s = (Ret None, s1) -> await s1 = (Ret (b, Some e), s2) ->
     kill vmNotSuspendedKey c s = poweroff vmNotSuspendedKey c s2) /\
  (forall s1 b s2,
     dispatch s = (Ret None, s1) -> await s1 = (Ret (b, None), s2) ->
     kill vmNotSuspendedKey c s = (Ret None, s2)) /\
  (forall r s', kill vmNotSuspendedKey c s = (r, s') ->
     exists ro delta,
       r = Ret ro /\ calls s' = (calls s ++ delta)%list /\
       dispatched delta `prefix_of` [SIGKILL]) /\
  (forall s', kill vmNotSuspendedKey c s = (Ret None, s') ->
     (exists s1, dispatch s = (Ret None, s1) /\
                 await s1 = (Ret (false, None), s')) \/
     (exists s1 w, poweroff vmNotSuspendedKey c s1 = (Ret None, s') /\
                   s' = after s1 (PowerOff_call v) w)).
Proof.
  intros Hvm dispatch await. subst dispatch await.
  split; [| split; [| split; [| split]]].
  - intros e s1 Hd. unfold kill. rewrite Hvm. unfold bind. rewrite Hd. reflexivity.
  - intros s1 b e s2 Hd Hw. unfold kill. rewrite Hvm. unfold bind.
    rewrite Hd, Hw. reflexivity.
  - intros s1 b s2 Hd Hw. unfold kill. rewrite Hvm. unfold bind.
    rewrite Hd, Hw. reflexivity.
  - intros r s'. unfold kill. rewrite Hvm. unfold bind.
    destruct (startGuestProgram c "kill" SIGKILL s) as [r1 s1] eqn:Hd.
    destruct (startGuestProgram_trace _ _ _ _ _ _ _ Hvm Hd)
      as (ro1 & d1 & -> & Hc1 & _ & Hp1 & Hs1).
    destruct ro1 as [e|].
    + intros Hoff.
      destruct (poweroff_trace _ _ _ _ _ Hvm Hoff) as (ro & w & -> & ->).
      exists ro, (d1 ++ [PowerOff_call v])%list.
      split; [reflexivity |]. split.
      * unfold after. simpl. rewrite Hc1, <- app_assoc. reflexivity.
      * rewrite dispatched_app. simpl. rewrite app_nil_r. exact Hp1.
    + destruct (waitForPowerState c (10 * Second)
                  VirtualMachinePowerStatePoweredOff s1) as [r2 s2] eqn:Hw.
      destruct (waitForPowerState_trace _ _ _ _ _ _ _ Hvm Hw)
        as (b & err & w2 & -> & ->).
      set (wc := WaitForPowerState_call v (10 * Second)
                                        VirtualMachinePowerStatePoweredOff) in *.
      destruct err as [e|].
      * intros Hoff.
        destruct (poweroff_trace _ _ _ _ _ Hvm Hoff) as (ro & w & -> & ->).
        exists ro, (d1 ++ [wc; PowerOff_call v])%list.
        split; [reflexivity |]. split.
        -- unfold after. simpl. rewrite Hc1, <- !app_assoc. reflexivity.
        -- rewrite dispatched_app. simpl. rewrite app_nil_r. exact Hp1.
      * intros Hrun. inversion Hrun; subst.
        exists None, (d1 ++ [wc])%list.
        split; [reflexivity |]. split.
        -- unfold after. simpl. rewrite Hc1, <- !app_assoc. reflexivity.
        -- rewrite dispatched_app. simpl. rewrite app_nil_r. exact Hp1.
  - intros s'. unfold kill. rewrite Hvm. unfold bind.
    destruct (startGuestProgram c "kill" SIGKILL s) as [r1 s1] eqn:Hd.
    destruct (startGuestProgram_trace _ _ _ _ _ _ _ Hvm Hd)
      as (ro1 & d1 & -> & _).
    destruct ro1 as [e|].
    + intros Hoff. right.
      destruct (poweroff_trace _ _ _ _ _ Hvm Hoff) as (ro & w & _ & Hs').
      eauto.
    + destruct (waitForPowerState c (10 * Second)
                  VirtualMachinePowerStatePoweredOff s1) as [r2 s2] eqn:Hw.
      destruct (waitForPowerState_trace _ _ _ _ _ _ _ Hvm Hw)
        as (b & err & w2 & -> & Hs2).
      destruct err as [e|].
      * intros Hoff. right.
        destruct (poweroff_trace _ _ _ _ _ Hvm Hoff) as (ro & w & _ & Hs').
        eauto.
      * intros Hrun. inversion Hrun; subst s'. left. exists s1.
        split; [reflexivity |].
        rewrite (waitForPowerState_nil_flag _ _ _ _ _ _ _ Hvm Hw) in Hw.
        exact Hw.
Qed.

End Correctness.

(** A container not yet created: shutdown answers NotYetExist and makes no
    round trip. *)
Lemma not_created_NotYetExist_witness :
  shutdown Mock.container_not_created None (Mock.start_state [])
  = (Ret (Some (NotYetExistError "c1")), Mock.start_state []).
Proof.
  apply (not_created_NotYetExist Mock.notSuspended Mock.container_not_created
           None (Mock.start_state [])).
  reflexivity.
Defined.

(** C8, as stated, fails: the wait ends because the parent context was
    cancelled, the deadline has not elapsed (the bounded context reports
    Canceled, not DeadlineExceeded), and waitForPowerState still returns
    (true, err). *)
Lemma waitForPowerState_flags_cancellation :
  let s := Mock.start_state [wait_cancelled] in
  let w := Mock.mkWorld [] (Some Canceled) in
  WaitForPowerState Mock.handle (10 * Second) powered_off (world s)
  = (Some context_canceled, w) /\
  context_Err w = Some Canceled /\
  context_Err w <> Some DeadlineExceeded /\
  waitForPowerState (Mock.container "") (10 * Second) powered_off s
  = (Ret (true, Some context_canceled),
     after s (WaitForPowerState_call Mock.handle (10 * Second) powered_off) w).
Proof.
  repeat split. discriminate.
Qed.

(** A wait that ends on its deadline is flagged as a timeout. *)
Lemma waitForPowerState_flag_witness :
  exists b,
    waitForPowerState (Mock.container "") (10 * Second) powered_off
                      (Mock.start_state [wait_times_out])
    = (Ret (b, Some deadline_exceeded),
       after (Mock.start_state [wait_times_out])
             (WaitForPowerState_call Mock.handle (10 * Second) powered_off)
             (Mock.mkWorld [] (Some DeadlineExceeded))) /\
    (b = true <->
     context_Err (Mock.mkWorld [] (Some DeadlineExceeded)) <> None).
Proof.
  apply (proj1 (proj2 (waitForPowerState_flag (Mock.container "") Mock.handle
                         (10 * Second) powered_off
                         (Mock.start_state [wait_times_out]) eq_refl))).
  reflexivity.
Defined.

(** The power-off task fails because the instance is already powered off:
    poweroff returns nil. *)
Lemma poweroff_idempotent_witness :
  let fault := task_Error (InvalidPowerState VirtualMachinePowerStatePoweredOff
                                             VirtualMachinePowerStatePoweredOff)
                          "The attempted operation cannot be performed in the current state (Powered off)." in
  let s := Mock.start_state [Mock.answer_error (Some fault)] in
  poweroff Mock.notSuspended (Mock.container "") s
  = (Ret None, after s (PowerOff_call Mock.handle) (Mock.mkWorld [] None)).
Proof.
  intros fault s.
  apply (proj1 (proj2 (poweroff_idempotent Mock.notSuspended (Mock.container "")
                         Mock.handle s eq_refl)) fault).
  - reflexivity.
  - constructor.
Defined.

(** The guest reports "false" under the readiness key: the error text of
    start is "false". *)
Lemma start_reports_guest_detail_witness :
  fst (start (Mock.container "")
             (Mock.start_state [ok; Mock.answer_key "false" None]))
  = Ret (Some (errorString "false")).
Proof.
  destruct (start_reports_guest_detail (Infra := Mock.infra) (Codec := Mock.codec)
              (Mock.container "") Mock.handle
              (Mock.start_state [ok; Mock.answer_key "false" None])
              (Mock.mkWorld [Mock.answer_key "false" None] None)
              (Mock.mkWorld [] None)
              "guestinfo.Sessions.c1.Started" [] "false"
              eq_refl eq_refl eq_refl eq_refl)
    as (s' & _ & _ & _ & Hother & _).
  destruct Hother as [Hrun _]; [discriminate |].
  rewrite Hrun. reflexivity.
Defined.

(** The guest ignores TERM and KILL: stop goes on with the hard power-off
    from the state in which shutdown gave up. *)
Lemma stop_falls_back_to_poweroff_witness :
  let s := unresponsive_guest in
  let s' := mkSt (Mock.mkWorld [] (Some DeadlineExceeded))
                 [ProcessManager_call Mock.handle;
                  StartProgram_call Mock.handle "c1" "kill" "TERM";
                  WaitForPowerState_call Mock.handle (10 * Second) powered_off;
                  ProcessManager_call Mock.handle;
                  StartProgram_call Mock.handle "c1" "kill" "KILL";
                  WaitForPowerState_call Mock.handle (10 * Second) powered_off] in
  stop Mock.notSuspended (Mock.container "") None s
  = poweroff Mock.notSuspended (Mock.container "") s'.
Proof.
  intros s s'.
  apply (proj2 (stop_falls_back_to_poweroff Mock.notSuspended (Mock.container "")
                  Mock.handle None s eq_refl)
           (errorString "failed to shutdown c1 via kill signals [TERM KILL]") s').
  reflexivity.
Defined.

(** The guest agent cannot be reached: kill goes on with the hard power-off. *)
Lemma kill_forces_poweroff_witness :
  let s := Mock.start_state [Mock.answer_error (Some (errorString "agent unavailable")); ok] in
  kill Mock.notSuspended (Mock.container "") s
  = poweroff Mock.notSuspended (Mock.container "")
             (after s (ProcessManager_call Mock.handle) (Mock.mkWorld [ok] None)).
Proof.
  intros s.
  apply (proj1 (kill_forces_poweroff Mock.notSuspended (Mock.container "")
                  Mock.handle s eq_refl)
           (errorString "agent unavailable")).
  reflexivity.
Defined.

(** C1, as stated, fails.  First, the dispatch of TERM fails with the
    error "agent unavailable"; shutdown returns at once, in the state right
    after the failed dispatch, but what it returns is a new error with the
    text "sending kill -TERM c1: agent unavailable", not the dispatch
    error.  Second, on a live handle without a session record under the
    container identifier no signal is tried at all: shutdown panics. *)
Lemma shutdown_wraps_dispatch_error :
  let c := Mock.container "" in
  let s := Mock.start_state [Mock.answer_error (Some (errorString "agent unavailable"))] in
  let s1 := after s (ProcessManager_call Mock.handle) (Mock.mkWorld [] None) in
  startGuestProgram c "kill" SIGTERM s
  = (Ret (Some (errorString "agent unavailable")), s1) /\
  shutdown c None s
  = (Ret (Some (errorString "sending kill -TERM c1: agent unavailable")), s1) /\
  errorString "sending kill -TERM c1: agent unavailable"
  <> errorString "agent unavailable" /\
  vm Mock.container_without_session = Some Mock.handle /\
  shutdown Mock.container_without_session None unresponsive_guest
  = (Panic nil_dereference, unresponsive_guest).
Proof.
  split; [reflexivity |]. split; [reflexivity |].
  split; [discriminate |]. split; reflexivity.
Qed.

(** The guest ignores TERM and KILL: shutdown returns the aggregate error. *)
Lemma shutdown_escalation_witness :
  fst (shutdown (Mock.container "") None unresponsive_guest)
  = Ret (Some (errorString "failed to shutdown c1 via kill signals [TERM KILL]")).
Proof.
  destruct (shutdown_escalation (Infra := Mock.infra)
              (Mock.container "") Mock.handle (Mock.session "")
              None unresponsive_guest eq_refl eq_refl)
    as (_ & _ & _ & _ & _ & Htimeout).
  destruct (Htimeout _ deadline_exceeded _ eq_refl eq_refl) as (_ & _ & _ & Hlast).
  rewrite (Hlast _ deadline_exceeded _ eq_refl eq_refl). reflexivity.
Defined.

(** No session record under the container identifier: shutdown panics
    before any round trip. *)
Lemma shutdown_needs_session_witness :
  shutdown Mock.container_without_session None (Mock.start_state [])
  = (Panic nil_dereference, Mock.start_state []).
Proof.
  apply (proj1 (shutdown_needs_session Mock.container_without_session Mock.handle
                  None (Mock.start_state []) eq_refl)).
  reflexivity.
Defined.

(** KILL configured as stop signal and ignored by the guest: KILL is
    dispatched twice. *)
Lemma shutdown_repeats_KILL_witness :
  fst (shutdown (Mock.container "KILL") None unresponsive_guest)
  = Ret (Some (errorString "failed to shutdown c1 via kill signals [KILL KILL]")) /\
  dispatched (calls (snd (shutdown (Mock.container "KILL") None unresponsive_guest)))
  = ["KILL"; "KILL"].
Proof.
  destruct (shutdown_repeats_KILL (Infra := Mock.infra)
              (Mock.container "KILL") Mock.handle
              (Mock.session "KILL") None unresponsive_guest eq_refl eq_refl)
    as (_ & _ & Hkill).
  destruct (Hkill eq_refl) as [_ Hrun].
  destruct (Hrun _ deadline_exceeded _ _ deadline_exceeded _
              eq_refl eq_refl eq_refl eq_refl) as [Hres _].
  rewrite Hres. split; reflexivity.
Defined.

(** A refresh on the scripted infrastructure: all three fields come from
    the one answer, and the handle stays. *)
Example refresh_replaces_all_fields :
  let cfg := {| Name := "c1";
                ExtraConfig := Some [ {| OptKey := "id"; OptValue := "c1" |};
                                      {| OptKey := "stopSignal"; OptValue := "INT" |} ] |} in
  let o := {| mo_Config := Some cfg;
              mo_Runtime := {| PowerState := VirtualMachinePowerStatePoweredOn |} |} in
  refresh (Mock.container "") (Mock.start_state [Mock.answer_properties (inr o)])
  = ({| ExecConfig := {| ID := "c1"; Sessions := {[ "c1" := Mock.session "INT" ]} |};
        Config := Some cfg;
        Runtime := Some {| PowerState := VirtualMachinePowerStatePoweredOn |};
        vm := Some Mock.handle |},
     (Ret None,
      mkSt (Mock.mkWorld [] None)
           [Properties_call Mock.handle ["config"; "runtime"]])).
Proof. reflexivity. Qed.

(** A failed property fetch leaves the container as it was. *)
Example refresh_keeps_container_on_error :
  refresh (Mock.container "TERM")
          (Mock.start_state [Mock.answer_properties (inl (errorString "connection reset"))])
  = (Mock.container "TERM",
     (Ret (Some (errorString "connection reset")),
      mkSt (Mock.mkWorld [] None)
           [Properties_call Mock.handle ["config"; "runtime"]])).
Proof. reflexivity. Qed.

(** ** Further properties of the methods *)

Section Coverage.
Context {World : Type} `{Infra : Infrastructure World} `{Codec : MetadataCodec}.
Variable vmNotSuspendedKey : string.

(** *** Shared facts about single round trips *)

Lemma startGuestProgram_shape (c : containerBase) (v : VirtualMachine)
      (name args : string) (s s' : St World) (r : Res (option error)) :
  vm c = Some v ->
  startGuestProgram c name args s = (r, s') ->
  (exists e, r = Ret (Some e) /\
             calls s' = (calls s ++ [ProcessManager_call v])%list) \/
  (exists ro, r = Ret ro /\
              calls s' = (calls s ++ [ProcessManager_call v;
                                      StartProgram_call v (ID (ExecConfig c)) name args])%list).
Proof.
  intros Hvm Hrun. rewrite (startGuestProgram_run _ v) in Hrun by exact Hvm.
  destruct (ProcessManager v (world s)) as [[e|] w1].
  - inversion Hrun; subst. left. exists e. split; reflexivity.
  - destruct (StartProgram v (ID (ExecConfig c)) name args w1) as [ro w2].
    inversion Hrun; subst. right. exists ro. split; [reflexivity |].
    unfold after. simpl. rewrite <- app_assoc. reflexivity.
Qed.

Lemma waitForPowerState_nil (c : containerBase) (v : VirtualMachine)
      (max : Duration) (state : VirtualMachinePowerState) (s s' : St World)
      (b : bool) :
  vm c = Some v ->
  waitForPowerState c max state s = (Ret (b, None), s') ->
  exists w,
    WaitForPowerState v max state (world s) = (None, w) /\
    s' = after s (WaitForPowerState_call v max state) w.
Proof.
  intros Hvm. unfold waitForPowerState, after. rewrite Hvm. run.
  destruct (WaitForPowerState v max state (world s)) as [[e|] w]; simpl;
    intros Hrun; inversion Hrun; subst.
  exists w. split; reflexivity.
Qed.

(** What a result of [poweroff] says about the answer of the power-off
    task. *)
Lemma poweroff_answer (c : containerBase) (v : VirtualMachine) (s s' : St World)
      (ro : option error) :
  vm c = Some v ->
  poweroff vmNotSuspendedKey c s = (Ret ro, s') ->
  exists a w,
    PowerOff v (world s) = (a, w) /\ s' = after s (PowerOff_call v) w /\
    match ro with
    | Some e => a = Some e
    | None => a = None \/ exists e, a = Some e /\ idempotent_fault vmNotSuspendedKey e
    end.
Proof.
  intros Hvm. unfold poweroff, after. rewrite Hvm. run.
  destruct (PowerOff v (world s)) as [[e|] w]; simpl.
  - destruct e as [id | [existing requested | fm reason | name] msg | msg]; simpl.
    + intros Hrun; injection Hrun as <- <-. eauto.
    + destruct existing; simpl; intros Hrun; injection Hrun as <- <-;
        eexists _, _; (split; [reflexivity |]); (split; [reflexivity |]); auto.
      right. eexists. split; [reflexivity | constructor].
    + destruct fm as [| m others]; simpl.
      * intros Hrun; injection Hrun as <- <-. eauto.
      * destruct (String.eqb_spec (Key m) vmNotSuspendedKey) as [Heq | Hne];
          intros Hrun; injection Hrun as <- <-;
          eexists _, _; (split; [reflexivity |]); (split; [reflexivity |]); auto.
        right. eexists. split; [reflexivity | constructor; exact Heq].
    + intros Hrun; injection Hrun as <- <-. eauto.
    + intros Hrun; injection Hrun as <- <-. eauto.
  - intros Hrun; injection Hrun as <- <-. eauto 6.
Qed.

(** X1: the helpers on a snapshot without instance handle.
    startGuestProgram and poweroff check the handle and return the
    NotYetExist error with the container identifier, making no round trip.
    waitForPowerState does not check it: it panics on the nil handle, also
    without a round trip. *)
Theorem helpers_without_handle (c : containerBase) (name args : string)
        (max : Duration) (state : VirtualMachinePowerState) (s : St World) :
  vm c = None ->
  startGuestProgram c name args s = (Ret (NotYetExist c), s) /\
  poweroff vmNotSuspendedKey c s = (Ret (NotYetExist c), s) /\
  waitForPowerState c max state s = (Panic nil_dereference, s).
Proof.
  intros Hvm. unfold startGuestProgram, poweroff, waitForPowerState, NotYetExist.
  rewrite Hvm. repeat split.
Qed.

(** *** The wait of shutdown *)

Lemma wrap64_small (z : Z) : - 2 ^ 63 <= z < 2 ^ 63 -> wrap64 z = z.
Proof.
  intros Hz. unfold wrap64.
  rewrite Z.mod_small by lia. lia.
Qed.

(** X2: the bounded wait of shutdown, for a wait time in the range of
    int32.  A positive number of seconds gives exactly that many seconds
    (the int64 product does not wrap around); nil, zero and negative
    numbers give ten seconds.  The wait is therefore always at least one
    second.  shutdown and stop with a non-positive wait time are the same
    computations as with none. *)
Theorem shutdown_wait_bounds (w : Z) :
  int32_range w ->
  (0 < w -> shutdown_wait (Some w) = w * Second) /\
  (w <= 0 -> shutdown_wait (Some w) = 10 * Second) /\
  shutdown_wait None = 10 * Second /\
  Second <= shutdown_wait (Some w) < 2 ^ 63 /\
  (w <= 0 -> forall c : containerBase,
     shutdown c (Some w) = shutdown c None /\
     stop vmNotSuspendedKey c (Some w) = stop vmNotSuspendedKey c None).
Proof.
  unfold int32_range. intros Hw.
  assert (Hpos : 0 < w -> shutdown_wait (Some w) = w * Second).
  { intros H. unfold shutdown_wait.
    destruct (Z.ltb_spec 0 w); [| lia].
    apply wrap64_small. unfold Second. lia. }
  assert (Hneg : w <= 0 -> shutdown_wait (Some w) = 10 * Second).
  { intros H. unfold shutdown_wait.
    destruct (Z.ltb_spec 0 w); [lia | reflexivity]. }
  split; [exact Hpos |]. split; [exact Hneg |]. split; [reflexivity |].
  split.
  - destruct (Z.lt_ge_cases 0 w) as [H | H].
    + rewrite (Hpos H). unfold Second. lia.
    + rewrite (Hneg H). unfold Second. lia.
  - intros H c.
    assert (Hsh : shutdown c (Some w) = shutdown c None).
    { unfold shutdown. rewrite (Hneg H). reflexivity. }
    split; [exact Hsh |]. unfold stop. rewrite Hsh. reflexivity.
Qed.

(** *** The round trips of shutdown, kill and stop *)

Lemma first_signal_nonempty (cs : SessionConfig) : first_signal cs <> "".
Proof.
  unfold first_signal.
  destruct (String.eqb_spec (StopSignal cs) "") as [Heq | Hne];
    [discriminate | exact Hne].
Qed.

Lemma dispatched_prefix (d l : list Call) :
  d `prefix_of` l -> dispatched d `prefix_of` dispatched l.
Proof.
  intros [k ->]. rewrite dispatched_app. apply prefix_app_r. reflexivity.
Qed.

(** The loop makes, in order, an initial part of the round trips of its
    signals. *)
Lemma shutdown_range_shape (c : containerBase) (v : VirtualMachine)
      (wait : Duration) (stop : list string) :
  vm c = Some v ->
  forall (sigs : list string) (s s' : St World) (r : Res (option error)),
    shutdown_range c wait stop sigs s = (r, s') ->
    exists ro d,
      r = Ret ro /\ calls s' = (calls s ++ d)%list /\
      d `prefix_of` signals_script v (ID (ExecConfig c)) wait sigs.
Proof.
  intros Hvm sigs. induction sigs as [| sig rest IH]; intros s s' r Hrun.
  - simpl in Hrun. injection Hrun as <- <-.
    eexists _, []. rewrite app_nil_r.
    split; [reflexivity |]. split; [reflexivity | apply prefix_nil].
  - simpl in Hrun. unfold bind at 1 in Hrun.
    destruct (startGuestProgram c "kill" sig s) as [r1 s1] eqn:Hd.
    change (signals_script v (ID (ExecConfig c)) wait (sig :: rest))
      with (ProcessManager_call v
            :: StartProgram_call v (ID (ExecConfig c)) "kill" sig
            :: WaitForPowerState_call v wait VirtualMachinePowerStatePoweredOff
            :: signals_script v (ID (ExecConfig c)) wait rest).
    destruct (startGuestProgram_shape _ _ _ _ _ _ _ Hvm Hd)
      as [(e & -> & Hc1) | (ro1 & -> & Hc1)].
    + injection Hrun as <- <-.
      eexists _, _. split; [reflexivity |]. split; [exact Hc1 |].
      apply prefix_cons, prefix_nil.
    + destruct ro1 as [e|].
      * injection Hrun as <- <-.
        eexists _, _. split; [reflexivity |]. split; [exact Hc1 |].
        apply prefix_cons, prefix_cons, prefix_nil.
      * unfold bind at 1 in Hrun.
        destruct (waitForPowerState c wait VirtualMachinePowerStatePoweredOff s1)
          as [r2 s2] eqn:Hw.
        destruct (waitForPowerState_trace _ _ _ _ _ _ _ Hvm Hw)
          as (b & err & w & -> & ->).
        assert (Hc2 : calls (after s1 (WaitForPowerState_call v wait
                                         VirtualMachinePowerStatePoweredOff) w)
                      = (calls s ++ attempt_script v (ID (ExecConfig c)) wait sig)%list).
        { unfold after, attempt_script. simpl. rewrite Hc1, <- app_assoc.
          reflexivity. }
        destruct err as [e|]; [destruct b |].
        -- apply IH in Hrun. destruct Hrun as (ro & d2 & -> & Hc3 & Hp).
           exists ro, (attempt_script v (ID (ExecConfig c)) wait sig ++ d2)%list.
           split; [reflexivity |]. split.
           ++ rewrite Hc3, Hc2, <- app_assoc. reflexivity.
           ++ apply (prefix_app (attempt_script v (ID (ExecConfig c)) wait sig)).
              exact Hp.
        -- injection Hrun as <- <-.
           eexists _, _. split; [reflexivity |]. split; [exact Hc2 |].
           unfold attempt_script. do 3 apply prefix_cons. apply prefix_nil.
        -- injection Hrun as <- <-.
           eexists _, _. split; [reflexivity |]. split; [exact Hc2 |].
           unfold attempt_script. do 3 apply prefix_cons. apply prefix_nil.
Qed.

(** A nil result of the loop comes from a wait that observed power-off,
    in a state reached from the initial one. *)
Lemma shutdown_range_nil (c : containerBase) (v : VirtualMachine)
      (wait : Duration) (stop : list string) :
  vm c = Some v ->
  forall (sigs : list string) (s s' : St World),
    shutdown_range c wait stop sigs s = (Ret None, s') ->
    exists s0 w d0,
      calls s0 = (calls s ++ d0)%list /\
      WaitForPowerState v wait VirtualMachinePowerStatePoweredOff (world s0)
      = (None, w) /\
      s' = after s0 (WaitForPowerState_call v wait
                       VirtualMachinePowerStatePoweredOff) w.
Proof.
  intros Hvm sigs. induction sigs as [| sig rest IH]; intros s s' Hrun.
  - simpl in Hrun. discriminate.
  - simpl in Hrun. unfold bind at 1 in Hrun.
    destruct (startGuestProgram c "kill" sig s) as [r1 s1] eqn:Hd.
    destruct (startGuestProgram_shape _ _ _ _ _ _ _ Hvm Hd)
      as [(e & -> & _) | (ro1 & -> & Hc1)]; [discriminate |].
    destruct ro1 as [e|]; [discriminate |].
    unfold bind at 1 in Hrun.
    destruct (waitForPowerState c wait VirtualMachinePowerStatePoweredOff s1)
      as [r2 s2] eqn:Hw.
    destruct (waitForPowerState_trace _ _ _ _ _ _ _ Hvm Hw)
      as (b & err & w & -> & Hs2).
    destruct err as [e|]; [destruct b |].
    + apply IH in Hrun. destruct Hrun as (s0 & w0 & d0 & Hc0 & Hans & Hs').
      exists s0, w0. eexists. split; [| split; [exact Hans | exact Hs']].
      rewrite Hc0, Hs2. unfold after. simpl. rewrite Hc1, <- !app_assoc.
      reflexivity.
    + discriminate.
    + injection Hrun as <-.
      destruct (waitForPowerState_nil _ _ _ _ _ _ _ Hvm Hw) as (w' & Hans & Hs').
      exists s1, w'. eexists. split; [exact Hc1 |]. split; [exact Hans | exact Hs'].
Qed.

(** X3: the round trips of shutdown on a live handle with a session
    record.  Whatever the infrastructure answers, the calls shutdown adds
    to the trace are an initial part of: process manager, "kill" with the
    first signal, wait, process manager, "kill" with KILL, wait - each
    "kill" started under the container identifier, each wait for power-off
    with the same bound.  So shutdown makes at most six round trips, never
    starts the second dispatch before the first wait has ended, and never
    hands an empty signal to "kill". *)
Theorem shutdown_round_trips (c : containerBase) (v : VirtualMachine)
        (cs : SessionConfig) (waitTime : option Z) (s s' : St World)
        (r : Res (option error)) :
  vm c = Some v ->
  Sessions (ExecConfig c) !! ID (ExecConfig c) = Some cs ->
  shutdown c waitTime s = (r, s') ->
  exists d,
    calls s' = (calls s ++ d)%list /\
    d `prefix_of` signals_script v (ID (ExecConfig c)) (shutdown_wait waitTime)
                                 [first_signal cs; SIGKILL] /\
    (length d <= 6)%nat /\
    Forall (fun sig => sig <> "") (dispatched d).
Proof.
  intros Hvm Hcs Hrun.
  rewrite (shutdown_run c v cs) in Hrun by assumption.
  destruct (shutdown_range_shape c v _ _ Hvm _ _ _ _ Hrun)
    as (ro & d & _ & Hc & Hp).
  exists d. split; [exact Hc |]. split; [exact Hp |]. split.
  - apply prefix_length in Hp. exact Hp.
  - apply dispatched_prefix in Hp. destruct Hp as [k Hk]. simpl in Hk.
    assert (Hall : Forall (fun sig => sig <> "") [first_signal cs; SIGKILL]).
    { constructor; [apply first_signal_nonempty |].
      constructor; [discriminate | constructor]. }
    rewrite Hk in Hall. apply Forall_app in Hall. apply Hall.
Qed.

(** X4: the round trips of kill on a live handle.  kill makes an initial
    part of: process manager, "kill" with KILL, wait of ten seconds for
    power-off; then either nothing more - only when all three were made and
    the result is nil - or exactly one power-off, as the last round trip.
    So kill makes at most four round trips and its wait is never
    configurable. *)
Theorem kill_round_trips (c : containerBase) (v : VirtualMachine)
        (s s' : St World) (r : Res (option error)) :
  vm c = Some v ->
  kill vmNotSuspendedKey c s = (r, s') ->
  exists d tl,
    calls s' = (calls s ++ d ++ tl)%list /\
    d `prefix_of` attempt_script v (ID (ExecConfig c)) (10 * Second) SIGKILL /\
    ((tl = [] /\ r = Ret None /\
      d = attempt_script v (ID (ExecConfig c)) (10 * Second) SIGKILL) \/
     tl = [PowerOff_call v]) /\
    (length (d ++ tl) <= 4)%nat.
Proof.
  intros Hvm. unfold kill. rewrite Hvm. unfold bind.
  destruct (startGuestProgram c "kill" SIGKILL s) as [r1 s1] eqn:Hd.
  assert (Hlen : forall d tl : list Call,
             d `prefix_of` attempt_script v (ID (ExecConfig c)) (10 * Second) SIGKILL ->
             (length tl <= 1)%nat -> (length (d ++ tl) <= 4)%nat).
  { intros d tl Hp Htl. apply prefix_length in Hp. rewrite length_app.
    simpl in Hp. lia. }
  assert (Hoff : forall s0 d,
             calls s0 = (calls s ++ d)%list ->
             d `prefix_of` attempt_script v (ID (ExecConfig c)) (10 * Second) SIGKILL ->
             poweroff vmNotSuspendedKey c s0 = (r, s') ->
             exists d tl,
               calls s' = (calls s ++ d ++ tl)%list /\
               d `prefix_of` attempt_script v (ID (ExecConfig c)) (10 * Second) SIGKILL /\
               ((tl = [] /\ r = Ret None /\
                 d = attempt_script v (ID (ExecConfig c)) (10 * Second) SIGKILL) \/
                tl = [PowerOff_call v]) /\
               (length (d ++ tl) <= 4)%nat).
  { intros s0 d Hc Hp Hrun.
    destruct (poweroff_trace vmNotSuspendedKey _ _ _ _ _ Hvm Hrun)
      as (ro & w & _ & ->).
    exists d, [PowerOff_call v]. split.
    - unfold after. simpl. rewrite Hc, <- app_assoc. reflexivity.
    - split; [exact Hp |]. split; [right; reflexivity |].
      apply Hlen; [exact Hp | simpl; lia]. }
  destruct (startGuestProgram_shape _ _ _ _ _ _ _ Hvm Hd)
    as [(e & -> & Hc1) | (ro1 & -> & Hc1)].
  - apply (Hoff s1 _ Hc1). unfold attempt_script. apply prefix_cons, prefix_nil.
  - destruct ro1 as [e|].
    + apply (Hoff s1 _ Hc1). unfold attempt_script.
      apply prefix_cons, prefix_cons, prefix_nil.
    + destruct (waitForPowerState c (10 * Second)
                  VirtualMachinePowerStatePoweredOff s1) as [r2 s2] eqn:Hw.
      destruct (waitForPowerState_trace _ _ _ _ _ _ _ Hvm Hw)
        as (b & err & w & -> & ->).
      assert (Hc2 : calls (after s1 (WaitForPowerState_call v (10 * Second)
                                       VirtualMachinePowerStatePoweredOff) w)
                    = (calls s ++ attempt_script v (ID (ExecConfig c))
                                                 (10 * Second) SIGKILL)%list).
      { unfold after, attempt_script. simpl. rewrite Hc1, <- app_assoc.
        reflexivity. }
      destruct err as [e|].
      * apply (Hoff _ _ Hc2). reflexivity.
      * intros Hrun. injection Hrun as <- <-.
        exists (attempt_script v (ID (ExecConfig c)) (10 * Second) SIGKILL), [].
        rewrite app_nil_r. split; [exact Hc2 |]. split; [reflexivity |].
        split; [left; auto | simpl; lia].
Qed.

(** X5: the round trips of stop on a live handle with a session record.
    stop makes an initial part of the round trips of shutdown and then
    either nothing more, in which case its result is nil, or exactly one
    power-off, as the last round trip.  So stop makes at most seven round
    trips, and never more than one power-off. *)
Theorem stop_round_trips (c : containerBase) (v : VirtualMachine)
        (cs : SessionConfig) (waitTime : option Z) (s s' : St World)
        (r : Res (option error)) :
  vm c = Some v ->
  Sessions (ExecConfig c) !! ID (ExecConfig c) = Some cs ->
  stop vmNotSuspendedKey c waitTime s = (r, s') ->
  exists d tl,
    calls s' = (calls s ++ d ++ tl)%list /\
    d `prefix_of` signals_script v (ID (ExecConfig c)) (shutdown_wait waitTime)
                                 [first_signal cs; SIGKILL] /\
    ((tl = [] /\ r = Ret None) \/ tl = [PowerOff_call v]) /\
    (length (d ++ tl) <= 7)%nat.
Proof.
  intros Hvm Hcs. unfold stop. rewrite Hvm. unfold bind.
  destruct (shutdown c waitTime s) as [r1 s1] eqn:Hsh.
  rewrite (shutdown_run c v cs) in Hsh by assumption.
  destruct (shutdown_range_shape c v _ _ Hvm _ _ _ _ Hsh)
    as (ro & d & -> & Hc & Hp).
  assert (Hlen : (length d <= 6)%nat) by (apply prefix_length in Hp; exact Hp).
  destruct ro as [e|].
  - intros Hrun.
    destruct (poweroff_trace vmNotSuspendedKey _ _ _ _ _ Hvm Hrun)
      as (ro & w & _ & ->).
    exists d, [PowerOff_call v]. split.
    + unfold after. simpl. rewrite Hc, <- app_assoc. reflexivity.
    + split; [exact Hp |]. split; [right; reflexivity |].
      rewrite length_app. simpl. lia.
  - intros Hrun. injection Hrun as <- <-.
    exists d, []. rewrite app_nil_r. split; [exact Hc |]. split; [exact Hp |].
    split; [left; auto | lia].
Qed.

(** *** What the results of shutdown, stop and kill say *)

(** X6: shutdown returns nil only after a wait that observed power-off.
    A nil result means that the handle is live and that the last round trip
    of shutdown is a wait for power-off, bounded by the wait of shutdown,
    which the infrastructure answered without error. *)
Theorem shutdown_nil_observed (c : containerBase) (waitTime : option Z)
        (s s' : St World) :
  shutdown c waitTime s = (Ret None, s') ->
  exists v s0 w d0,
    vm c = Some v /\
    calls s0 = (calls s ++ d0)%list /\
    WaitForPowerState v (shutdown_wait waitTime)
                      VirtualMachinePowerStatePoweredOff (world s0) = (None, w) /\
    s' = after s0 (WaitForPowerState_call v (shutdown_wait waitTime)
                     VirtualMachinePowerStatePoweredOff) w.
Proof.
  unfold shutdown. destruct (vm c) as [v|] eqn:Hvm; [| discriminate].
  destruct (Sessions (ExecConfig c) !! ID (ExecConfig c)) as [cs|];
    [| discriminate].
  intros Hrun.
  destruct (shutdown_range_nil c v _ _ Hvm _ _ _ Hrun)
    as (s0 & w & d0 & Hc & Hans & Hs').
  exists v, s0, w, d0. auto.
Qed.

Lemma poweroff_last_round_trip (c : containerBase) (v : VirtualMachine)
      (wait : Duration) (s0 s' : St World) (ro : option error) :
  vm c = Some v ->
  poweroff vmNotSuspendedKey c s0 = (Ret ro, s') ->
  exists w, last_round_trip vmNotSuspendedKey v wait s0 w ro s'.
Proof.
  intros Hvm Hrun.
  destruct (poweroff_answer _ _ _ _ _ Hvm Hrun) as (a & w & Hans & Hs' & Hro).
  exists w. unfold last_round_trip. destruct ro as [e|].
  - subst a. auto.
  - right. split; [exact Hs' |].
    destruct Hro as [-> | (e & -> & Hid)]; eauto.
Qed.

(** X7: what a result of stop on a live handle says.  A nil result means
    that a wait of shutdown observed power-off, or that stop ended with a
    power-off whose task succeeded or failed with one of the two idempotent
    faults.  An error result is always the error of the power-off task,
    unchanged: no error of shutdown (dispatch failure, wait failure,
    exhausted signals) is ever the result of stop. *)
Theorem stop_result (c : containerBase) (v : VirtualMachine)
        (waitTime : option Z) (s s' : St World) (ro : option error) :
  vm c = Some v ->
  stop vmNotSuspendedKey c waitTime s = (Ret ro, s') ->
  exists s0 w d0,
    calls s0 = (calls s ++ d0)%list /\
    last_round_trip vmNotSuspendedKey v (shutdown_wait waitTime) s0 w ro s'.
Proof.
  intros Hvm. unfold stop. rewrite Hvm. unfold bind.
  destruct (shutdown c waitTime s) as [r1 s1] eqn:Hsh.
  destruct r1 as [[e1|] | k]; [| | discriminate].
  - intros Hrun.
    destruct (poweroff_last_round_trip c v (shutdown_wait waitTime) _ _ _ Hvm Hrun)
      as (w & Hlast).
    unfold shutdown in Hsh. rewrite Hvm in Hsh.
    destruct (Sessions (ExecConfig c) !! ID (ExecConfig c)) as [cs|];
      [| discriminate].
    destruct (shutdown_range_shape c v _ _ Hvm _ _ _ _ Hsh)
      as (ro1 & d & _ & Hc & _).
    exists s1, w, d. auto.
  - intros Hrun. injection Hrun as <- <-.
    unfold shutdown in Hsh. rewrite Hvm in Hsh.
    destruct (Sessions (ExecConfig c) !! ID (ExecConfig c)) as [cs|];
      [| discriminate].
    destruct (shutdown_range_nil c v _ _ Hvm _ _ _ Hsh)
      as (s0 & w & d0 & Hc & Hans & Hs').
    exists s0, w, d0. split; [exact Hc |]. left. auto.
Qed.

(** X8: what a result of kill on a live handle says.  A nil result means
    that the ten-second wait after KILL observed power-off, or that kill
    ended with a power-off whose task succeeded or failed with one of the
    two idempotent faults.  An error result is always the error of the
    power-off task, unchanged: a failed dispatch or a failed wait is never
    the result of kill. *)
Theorem kill_result (c : containerBase) (v : VirtualMachine)
        (s s' : St World) (ro : option error) :
  vm c = Some v ->
  kill vmNotSuspendedKey c s = (Ret ro, s') ->
  exists s0 w d0,
    calls s0 = (calls s ++ d0)%list /\
    last_round_trip vmNotSuspendedKey v (10 * Second) s0 w ro s'.
Proof.
  intros Hvm. unfold kill. rewrite Hvm. unfold bind.
  destruct (startGuestProgram c "kill" SIGKILL s) as [r1 s1] eqn:Hd.
  assert (Hoff : forall s0 d0,
             calls s0 = (calls s ++ d0)%list ->
             poweroff vmNotSuspendedKey c s0 = (Ret ro, s') ->
             exists s0 w d0,
               calls s0 = (calls s ++ d0)%list /\
               last_round_trip vmNotSuspendedKey v (10 * Second) s0 w ro s').
  { intros s0 d0 Hc Hrun.
    destruct (poweroff_last_round_trip c v (10 * Second) _ _ _ Hvm Hrun)
      as (w & Hlast).
    exists s0, w, d0. auto. }
  destruct (startGuestProgram_shape _ _ _ _ _ _ _ Hvm Hd)
    as [(e & -> & Hc1) | (ro1 & -> & Hc1)].
  - apply (Hoff s1 _ Hc1).
  - destruct ro1 as [e|]; [apply (Hoff s1 _ Hc1) |].
    destruct (waitForPowerState c (10 * Second)
                VirtualMachinePowerStatePoweredOff s1) as [r2 s2] eqn:Hw.
    destruct (waitForPowerState_trace _ _ _ _ _ _ _ Hvm Hw)
      as (b & err & w & -> & Hs2).
    destruct err as [e|].
    + eapply (Hoff s2). rewrite Hs2. unfold after. simpl.
      rewrite Hc1, <- app_assoc. reflexivity.
    + intros Hrun. injection Hrun as <- <-.
      destruct (waitForPowerState_nil _ _ _ _ _ _ _ Hvm Hw) as (w' & Hans & Hs').
      exists s1, w'. eexists. split; [exact Hc1 |]. left. auto.
Qed.

(** *** start *)

(** The readiness key: the first key computed for Sessions.ID.Started. *)
Lemma start_run (c : containerBase) (v : VirtualMachine) (s : St World) :
  vm c = Some v ->
  start c s =
  match PowerOn v (world s) with
  | (Some e, w) => (Ret (Some e), after s (PowerOn_call v) w)
  | (None, w) =>
      match CalculateKeys (ExecConfig c)
                          ("Sessions." ++ ID (ExecConfig c) ++ ".Started") "" with
      | [] => (Panic index_out_of_range, after s (PowerOn_call v) w)
      | key :: _ =>
          match WaitForKeyInExtraConfig v key w with
          | ((_, Some e), w') =>
              (Ret (Some (errorString
                            ("unable to wait for process launch status: " ++ Error e))),
               after (after s (PowerOn_call v) w)
                     (WaitForKeyInExtraConfig_call v key) w')
          | ((detail, None), w') =>
              (Ret (if String.eqb detail "true" then None
                    else Some (errorString detail)),
               after (after s (PowerOn_call v) w)
                     (WaitForKeyInExtraConfig_call v key) w')
          end
      end
  end.
Proof.
  intros Hvm. unfold start, after. rewrite Hvm. run.
  destruct (PowerOn v (world s)) as [[e|] w]; [reflexivity |]. simpl.
  destruct (CalculateKeys _ _ _) as [| key keys]; [reflexivity |]. simpl.
  destruct (WaitForKeyInExtraConfig v key w) as [[detail [e|]] w'];
    [reflexivity |]. simpl.
  destruct (String.eqb detail "true"); reflexivity.
Qed.

(** X11: start panics exactly when the handle is live, the power-on
    succeeded and the codec computes no key for Sessions.ID.Started; the
    panic (index out of range) comes after the power-on round trip, so the
    instance has been powered on. *)
Theorem start_panics_without_key (c : containerBase) (s : St World) :
  ((exists k, fst (start c s) = Panic k) <->
   (exists v w,
      vm c = Some v /\ PowerOn v (world s) = (None, w) /\
      CalculateKeys (ExecConfig c)
                    ("Sessions." ++ ID (ExecConfig c) ++ ".Started") "" = [])) /\
  (forall v w,
     vm c = Some v -> PowerOn v (world s) = (None, w) ->
     CalculateKeys (ExecConfig c)
                   ("Sessions." ++ ID (ExecConfig c) ++ ".Started") "" = [] ->
     start c s = (Panic index_out_of_range, after s (PowerOn_call v) w)).
Proof.
  assert (Hpanic : forall v w,
             vm c = Some v -> PowerOn v (world s) = (None, w) ->
             CalculateKeys (ExecConfig c)
                           ("Sessions." ++ ID (ExecConfig c) ++ ".Started") "" = [] ->
             start c s = (Panic index_out_of_range, after s (PowerOn_call v) w)).
  { intros v w Hvm Hon Hkeys. rewrite (start_run c v s Hvm), Hon, Hkeys.
    reflexivity. }
  split; [| exact Hpanic]. split.
  - intros [k Hk]. destruct (vm c) as [v|] eqn:Hvm.
    + rewrite (start_run c v s Hvm) in Hk.
      destruct (PowerOn v (world s)) as [[e|] w] eqn:Hon; [discriminate |].
      destruct (CalculateKeys _ _ _) as [| key keys] eqn:Hkeys;
        [exists v, w; auto |].
      destruct (WaitForKeyInExtraConfig v key w) as [[detail [e|]] w'];
        discriminate.
    + unfold start in Hk. rewrite Hvm in Hk. discriminate.
  - intros (v & w & Hvm & Hon & Hkeys). exists index_out_of_range.
    rewrite (Hpanic v w Hvm Hon Hkeys). reflexivity.
Qed.

(** X12: what a result of start on a live handle says.  A nil result
    means: the power-on succeeded, the readiness key was waited for
    successfully, the guest reported "true", and start made exactly these
    two round trips.  An error result is one of three: the power-on error,
    unchanged, after which no key is waited for; an error whose text is
    "unable to wait for process launch status: " followed by the text of
    the failed wait; or an error whose text is the reported detail, which
    is not "true". *)
Theorem start_result (c : containerBase) (v : VirtualMachine)
        (s s' : St World) (ro : option error) :
  vm c = Some v ->
  start c s = (Ret ro, s') ->
  match ro with
  | None =>
      exists w key keys,
        PowerOn v (world s) = (None, w) /\
        CalculateKeys (ExecConfig c)
                      ("Sessions." ++ ID (ExecConfig c) ++ ".Started") ""
        = key :: keys /\
        WaitForKeyInExtraConfig v key w = (("true", None), world s') /\
        calls s' = (calls s ++ [PowerOn_call v;
                                WaitForKeyInExtraConfig_call v key])%list
  | Some err =>
      (exists w, PowerOn v (world s) = (Some err, w) /\
                 s' = after s (PowerOn_call v) w) \/
      (exists w key keys detail a,
         PowerOn v (world s) = (None, w) /\
         CalculateKeys (ExecConfig c)
                       ("Sessions." ++ ID (ExecConfig c) ++ ".Started") ""
         = key :: keys /\
         WaitForKeyInExtraConfig v key w = ((detail, a), world s') /\
         calls s' = (calls s ++ [PowerOn_call v;
                                 WaitForKeyInExtraConfig_call v key])%list /\
         match a with
         | Some e =>
             Error err = "unable to wait for process launch status: " ++ Error e
         | None => detail <> "true" /\ Error err = detail
         end)
  end.
Proof.
  intros Hvm. rewrite (start_run c v s Hvm).
  destruct (PowerOn v (world s)) as [[e|] w] eqn:Hon.
  - intros Hrun. injection Hrun as <- <-. left. eauto.
  - destruct (CalculateKeys _ _ _) as [| key keys] eqn:Hkeys; [discriminate |].
    destruct (WaitForKeyInExtraConfig v key w) as [[detail [e|]] w'] eqn:Hwait.
    + intros Hrun. injection Hrun as <- <-. right.
      exists w, key, keys, detail, (Some e). simpl.
      rewrite <- app_assoc. auto 10.
    + destruct (String.eqb_spec detail "true") as [Heq | Hne];
        intros Hrun; injection Hrun as <- <-.
      * subst detail. exists w, key, keys. simpl. rewrite <- app_assoc. auto 10.
      * right. exists w, key, keys, detail, None. simpl.
        rewrite <- app_assoc. auto 10.
Qed.

(** *** refresh and newBase *)

(** X13: refresh on a live handle does not look at what the snapshot held
    before.  Two snapshots with the same handle, refreshed in the same
    state, get the same result and leave the same state; when the result is
    nil they are the same snapshot afterwards, whatever Config, Runtime and
    ExecConfig each held. *)
Theorem refresh_ignores_stale_fields (c1 c2 : containerBase)
        (v : VirtualMachine) (s : St World) :
  vm c1 = Some v ->
  vm c2 = Some v ->
  snd (refresh c1 s) = snd (refresh c2 s) /\
  (fst (snd (refresh c1 s)) = Ret None -> fst (refresh c1 s) = fst (refresh c2 s)).
Proof.
  intros H1 H2. unfold refresh, updates. rewrite H1, H2. run.
  destruct (Properties v ["config"; "runtime"] (world s)) as [[e | o] w].
  - simpl. split; [reflexivity | discriminate].
  - destruct (mo_Config o) as [cfg|]; simpl.
    + split; reflexivity.
    + split; [reflexivity | discriminate].
Qed.

(** X14: a successful refresh builds what newBase builds.  After a nil
    result the snapshot is newBase of the old handle and of the config and
    runtime of the one property fetch, provided the fetched metadata blob
    is not nil; for a nil blob the two agree when decoding nothing leaves
    the zero configuration as it is (newBase then skips the decoding,
    refresh does not). *)
Theorem refresh_builds_newBase (c c' : containerBase) (s s' : St World) :
  refresh c s = (c', (Ret None, s')) ->
  exists v o cfg,
    vm c = Some v /\
    Properties v ["config"; "runtime"] (world s) = (inr o, world s') /\
    mo_Config o = Some cfg /\
    (ExtraConfig cfg <> None \/
     Decode [] ExecutorConfig_zero = ExecutorConfig_zero ->
     c' = newBase (Some v) (Some cfg) (Some (mo_Runtime o))).
Proof.
  unfold refresh, updates. destruct (vm c) as [v|] eqn:Hvm; [| discriminate].
  run. destruct (Properties v ["config"; "runtime"] (world s)) as [[e | o] w] eqn:Hp;
    [discriminate |].
  destruct (mo_Config o) as [cfg|] eqn:Hcfg; [| discriminate].
  intros Hrun. injection Hrun as <- <-.
  exists v, o, cfg. simpl. split; [reflexivity |]. split; [exact Hp |].
  split; [exact Hcfg |].
  intros Hblob. unfold newBase. simpl.
  destruct (ExtraConfig cfg) as [blob|] eqn:Hec; simpl.
  - reflexivity.
  - destruct Hblob as [Hne | Hdec]; [contradiction |]. rewrite Hdec. reflexivity.
Qed.

(** X15: newBase derives the configuration from the config alone.  It
    keeps handle, config and runtime as given; without config (nil config,
    or a config whose metadata blob is nil) no decoding is made and the
    configuration is the zero one, with the empty identifier and no
    session; with a blob that is not nil, empty or not, the configuration
    is the decoding of its entries.  Hence building a snapshot again from
    the handle, config and runtime of a snapshot built by newBase gives the
    same snapshot. *)
Theorem newBase_from_config (v : option VirtualMachine)
        (c : option VirtualMachineConfigInfo)
        (r : option VirtualMachineRuntimeInfo) :
  vm (newBase v c r) = v /\
  Config (newBase v c r) = c /\
  Runtime (newBase v c r) = r /\
  (match c with Some cfg => ExtraConfig cfg = None | None => True end ->
   ExecConfig (newBase v c r) = ExecutorConfig_zero) /\
  (forall cfg blob,
     c = Some cfg -> ExtraConfig cfg = Some blob ->
     ExecConfig (newBase v c r) = Decode blob ExecutorConfig_zero) /\
  newBase (vm (newBase v c r)) (Config (newBase v c r)) (Runtime (newBase v c r))
  = newBase v c r.
Proof.
  assert (Hfields : vm (newBase v c r) = v /\ Config (newBase v c r) = c /\
                    Runtime (newBase v c r) = r).
  { unfold newBase. destruct c as [cfg|]; [| auto].
    destruct (ExtraConfig cfg); auto. }
  destruct Hfields as (Hv & Hc & Hr).
  split; [exact Hv |]. split; [exact Hc |]. split; [exact Hr |].
  split; [| split].
  - intros Hblob. unfold newBase. destruct c as [cfg|]; [| reflexivity].
    rewrite Hblob. reflexivity.
  - intros cfg blob -> Hblob. unfold newBase. rewrite Hblob. reflexivity.
  - rewrite Hv, Hc, Hr. reflexivity.
Qed.

(** *** The errors of shutdown *)

Lemma waitForPowerState_failed (c : containerBase) (v : VirtualMachine)
      (max : Duration) (state : VirtualMachinePowerState) (s s' : St World)
      (b : bool) (e : error) :
  vm c = Some v ->
  waitForPowerState c max state s = (Ret (b, Some e), s') ->
  exists w,
    WaitForPowerState v max state (world s) = (Some e, w) /\
    s' = after s (WaitForPowerState_call v max state) w /\
    (b = false -> context_Err w = None).
Proof.
  intros Hvm. unfold waitForPowerState, after. rewrite Hvm. run.
  destruct (WaitForPowerState v max state (world s)) as [[e0|] w]; simpl;
    intros Hrun; [| discriminate].
  injection Hrun as <- <- <-. exists w.
  split; [reflexivity |]. split; [reflexivity |].
  destruct (context_Err w); [discriminate | reflexivity].
Qed.

Lemma shutdown_range_error (c : containerBase) (v : VirtualMachine)
      (wait : Duration) (stop : list string) :
  vm c = Some v ->
  forall (sigs : list string) (s s' : St World) (err : error),
    shutdown_range c wait stop sigs s = (Ret (Some err), s') ->
    (exists sig e s0,
       In sig sigs /\
       startGuestProgram c "kill" sig s0 = (Ret (Some e), s') /\
       err = dispatch_error c sig e) \/
    (exists s0 w,
       WaitForPowerState v wait VirtualMachinePowerStatePoweredOff (world s0)
       = (Some err, w) /\
       context_Err w = None /\
       s' = after s0 (WaitForPowerState_call v wait
                        VirtualMachinePowerStatePoweredOff) w) \/
    (err = exhausted_error c stop /\
     calls s' = (calls s ++ signals_script v (ID (ExecConfig c)) wait sigs)%list).
Proof.
  intros Hvm sigs. induction sigs as [| sig rest IH]; intros s s' err Hrun.
  - simpl in Hrun. injection Hrun as <- <-. right; right.
    simpl. rewrite app_nil_r. split; reflexivity.
  - simpl in Hrun. unfold bind at 1 in Hrun.
    destruct (startGuestProgram c "kill" sig s) as [r1 s1] eqn:Hd.
    destruct (startGuestProgram_shape _ _ _ _ _ _ _ Hvm Hd)
      as [(e & -> & Hc1) | (ro1 & -> & Hc1)].
    + injection Hrun as <- <-. left. exists sig, e, s.
      split; [left; reflexivity |]. split; [exact Hd | reflexivity].
    + destruct ro1 as [e|].
      * injection Hrun as <- <-. left. exists sig, e, s.
        split; [left; reflexivity |]. split; [exact Hd | reflexivity].
      * unfold bind at 1 in Hrun.
        destruct (waitForPowerState c wait VirtualMachinePowerStatePoweredOff s1)
          as [r2 s2] eqn:Hw.
        destruct (waitForPowerState_trace _ _ _ _ _ _ _ Hvm Hw)
          as (b & a & w & -> & Hs2).
        destruct a as [e|]; [destruct b | discriminate].
        -- apply IH in Hrun.
           destruct Hrun as [(sig' & e' & s0 & Hin & Hd' & ->)
                            | [(s0 & w0 & Hans & Hctx & ->) | [-> Hc3]]].
           ++ left. exists sig', e', s0. split; [right; exact Hin |]. auto.
           ++ right; left. exists s0, w0. auto.
           ++ right; right. split; [reflexivity |].
              rewrite Hc3, Hs2. unfold after. simpl.
              rewrite Hc1, <- !app_assoc. reflexivity.
        -- injection Hrun as <- <-.
           destruct (waitForPowerState_failed _ _ _ _ _ _ _ _ Hvm Hw)
             as (w' & Hans & Hs' & Hctx).
           right; left. exists s1, w'. auto.
Qed.

(** X16: what an error of shutdown says.  On a live handle with a
    session record an error result of shutdown is one of three: the
    wrapped error of a failed dispatch of the first signal or of KILL,
    returned in the state that dispatch ended in; the error of a failed
    wait, unchanged, where the bounded context was not done; or the
    aggregate error, returned after all six round trips of the two
    signals. *)
Theorem shutdown_error_result (c : containerBase) (v : VirtualMachine)
        (cs : SessionConfig) (waitTime : option Z) (s s' : St World)
        (err : error) :
  vm c = Some v ->
  Sessions (ExecConfig c) !! ID (ExecConfig c) = Some cs ->
  shutdown c waitTime s = (Ret (Some err), s') ->
  (exists sig e s0,
     (sig = first_signal cs \/ sig = SIGKILL) /\
     startGuestProgram c "kill" sig s0 = (Ret (Some e), s') /\
     err = dispatch_error c sig e) \/
  (exists s0 w,
     WaitForPowerState v (shutdown_wait waitTime)
                       VirtualMachinePowerStatePoweredOff (world s0)
     = (Some err, w) /\
     context_Err w = None /\
     s' = after s0 (WaitForPowerState_call v (shutdown_wait waitTime)
                      VirtualMachinePowerStatePoweredOff) w) \/
  (err = exhausted_error c [first_signal cs; SIGKILL] /\
   calls s' = (calls s ++ signals_script v (ID (ExecConfig c))
                            (shutdown_wait waitTime)
                            [first_signal cs; SIGKILL])%list).
Proof.
  intros Hvm Hcs Hrun.
  rewrite (shutdown_run c v cs) in Hrun by assumption.
  destruct (shutdown_range_error c v _ _ Hvm _ _ _ _ Hrun)
    as [(sig & e & s0 & Hin & Hd & ->) | [Hwait | Hall]].
  - left. exists sig, e, s0. split; [| auto].
    destruct Hin as [<- | [<- | []]]; auto.
  - right; left. exact Hwait.
  - right; right. exact Hall.
Qed.

(** *** Cached state, refresh panics, unreachable agent *)

Lemma shutdown_range_with_cached (c : containerBase)
      (cfg : option VirtualMachineConfigInfo)
      (rt : option VirtualMachineRuntimeInfo)
      (wait : Duration) (stop sigs : list string) (s : St World) :
  shutdown_range (with_cached c cfg rt) wait stop sigs s
  = shutdown_range c wait stop sigs s.
Proof.
  revert s. induction sigs as [| sig rest IH]; intros s; [reflexivity |].
  simpl. unfold bind.
  change (startGuestProgram (with_cached c cfg rt) "kill" sig s)
    with (startGuestProgram c "kill" sig s).
  destruct (startGuestProgram c "kill" sig s) as [[[e|] | k] s1];
    try reflexivity.
  change (waitForPowerState (with_cached c cfg rt) wait
                            VirtualMachinePowerStatePoweredOff s1)
    with (waitForPowerState c wait VirtualMachinePowerStatePoweredOff s1).
  destruct (waitForPowerState c wait VirtualMachinePowerStatePoweredOff s1)
    as [[[b [e|]] | k] s2]; try reflexivity.
  destruct b; simpl; [apply IH | reflexivity].
Qed.

(** X17: the lifecycle methods never consult the cached infrastructure
    state.  start, shutdown, stop, kill and poweroff on a snapshot are the
    same computations whatever its Config and Runtime hold (for instance a
    Runtime that already says powered off does not shorten stop), and so
    are the result and final state of refresh. *)
Theorem lifecycle_ignores_cached_state (c : containerBase)
        (cfg : option VirtualMachineConfigInfo)
        (rt : option VirtualMachineRuntimeInfo)
        (waitTime : option Z) (s : St World) :
  start (with_cached c cfg rt) s = start c s /\
  shutdown (with_cached c cfg rt) waitTime s = shutdown c waitTime s /\
  stop vmNotSuspendedKey (with_cached c cfg rt) waitTime s
  = stop vmNotSuspendedKey c waitTime s /\
  kill vmNotSuspendedKey (with_cached c cfg rt) s = kill vmNotSuspendedKey c s /\
  poweroff vmNotSuspendedKey (with_cached c cfg rt) s
  = poweroff vmNotSuspendedKey c s /\
  snd (refresh (with_cached c cfg rt) s) = snd (refresh c s).
Proof.
  assert (Hsh : forall s0,
             shutdown (with_cached c cfg rt) waitTime s0 = shutdown c waitTime s0).
  { intros s0. unfold shutdown. simpl.
    destruct (vm c); [| reflexivity].
    destruct (Sessions (ExecConfig c) !! ID (ExecConfig c)); [| reflexivity].
    apply shutdown_range_with_cached. }
  split; [reflexivity |]. split; [apply Hsh |].
  split.
  - unfold stop. simpl. destruct (vm c); [| reflexivity].
    unfold bind. rewrite Hsh. reflexivity.
  - split; [reflexivity |]. split; [reflexivity |].
    unfold refresh, updates. simpl. destruct (vm c) as [v|]; [| reflexivity].
    run. destruct (Properties v ["config"; "runtime"] (world s)) as [[e | o] w];
      [reflexivity |].
    destruct (mo_Config o); reflexivity.
Qed.

(** X18: refresh panics exactly when the handle is live and the property
    fetch succeeds with a nil config; the receiver is then the one held
    before.  The results of updates are exclusive: a new base without
    error, or an error without base, so the assignment in refresh never
    dereferences nil. *)
Theorem refresh_panics_without_config (c : containerBase) (s : St World) :
  ((exists k, fst (snd (refresh c s)) = Panic k) <->
   (exists v o w,
      vm c = Some v /\
      Properties v ["config"; "runtime"] (world s) = (inr o, w) /\
      mo_Config o = None)) /\
  ((exists k, fst (snd (refresh c s)) = Panic k) -> fst (refresh c s) = c) /\
  (forall base err s',
     updates c s = (Ret (base, err), s') ->
     (base = None /\ err <> None) \/ (base <> None /\ err = None)).
Proof.
  unfold refresh, updates. destruct (vm c) as [v|] eqn:Hvm.
  - run. destruct (Properties v ["config"; "runtime"] (world s)) as [[e | o] w] eqn:Hp.
    + simpl. split; [| split].
      * split; [intros [k Hk]; discriminate |].
        intros (v' & o' & w' & Hv & Ho & _). congruence.
      * reflexivity.
      * intros base err s' Hrun. injection Hrun as <- <- <-.
        left. split; [reflexivity | discriminate].
    + destruct (mo_Config o) as [cfg|] eqn:Hcfg; simpl; (split; [| split]).
      * split; [intros [k Hk]; discriminate |].
        intros (v' & o' & w' & Hv & Ho & Hnone).
        injection Hv as <-. rewrite Hp in Ho. injection Ho as <- <-. congruence.
      * intros [k Hk]; discriminate.
      * intros base err s' Hrun. injection Hrun as <- <- <-.
        right. split; [discriminate | reflexivity].
      * split; [intros _; exists v, o, w; auto | intros _; eauto].
      * reflexivity.
      * intros base err s' Hrun. discriminate.
  - run. split; [| split].
    + split; [intros [k Hk]; discriminate |].
      intros (v' & o' & w' & Hv & _). discriminate.
    + reflexivity.
    + intros base err s' Hrun. injection Hrun as <- <- <-.
      left. split; [reflexivity | discriminate].
Qed.

(** X19: when the guest's process manager cannot be obtained, stop and
    kill are the same computation: after that one failed round trip both
    go straight to the hard power-off, and no signal is dispatched. *)
Theorem stop_and_kill_without_agent (c : containerBase) (v : VirtualMachine)
        (cs : SessionConfig) (waitTime : option Z) (s : St World)
        (e : error) (w : World) :
  vm c = Some v ->
  Sessions (ExecConfig c) !! ID (ExecConfig c) = Some cs ->
  ProcessManager v (world s) = (Some e, w) ->
  stop vmNotSuspendedKey c waitTime s
  = poweroff vmNotSuspendedKey c (after s (ProcessManager_call v) w) /\
  kill vmNotSuspendedKey c s
  = poweroff vmNotSuspendedKey c (after s (ProcessManager_call v) w) /\
  exists ro w',
    stop vmNotSuspendedKey c waitTime s
    = (Ret ro, after (after s (ProcessManager_call v) w) (PowerOff_call v) w').
Proof.
  intros Hvm Hcs Hpm.
  assert (Hd : forall sig,
             startGuestProgram c "kill" sig s
             = (Ret (Some e), after s (ProcessManager_call v) w)).
  { intros sig. rewrite (startGuestProgram_run c v) by exact Hvm.
    rewrite Hpm. reflexivity. }
  assert (Hstop : stop vmNotSuspendedKey c waitTime s
                  = poweroff vmNotSuspendedKey c (after s (ProcessManager_call v) w)).
  { unfold stop. rewrite Hvm. unfold bind.
    rewrite (shutdown_run c v cs) by assumption.
    rewrite (shutdown_range_dispatch_failed _ _ _ _ _ _ _ _ (Hd _)).
    reflexivity. }
  split; [exact Hstop |]. split.
  - unfold kill. rewrite Hvm. unfold bind. rewrite Hd. reflexivity.
  - rewrite Hstop.
    destruct (poweroff vmNotSuspendedKey c (after s (ProcessManager_call v) w))
      as [r s'] eqn:Hoff.
    destruct (poweroff_trace vmNotSuspendedKey _ _ _ _ _ Hvm Hoff)
      as (ro & w' & -> & ->).
    eauto.
Qed.

End Coverage.

(** ** Scenarios for the further properties *)

(** A container not yet created: the dispatcher answers NotYetExist. *)
Lemma helpers_without_handle_witness :
  startGuestProgram Mock.container_not_created "kill" "TERM" (Mock.start_state [])
  = (Ret (Some (NotYetExistError "c1")), Mock.start_state []).
Proof.
  apply (helpers_without_handle Mock.notSuspended Mock.container_not_created
           "kill" "TERM" (10 * Second) powered_off (Mock.start_state [])).
  reflexivity.
Defined.

(** A wait time of thirty seconds. *)
Lemma shutdown_wait_bounds_witness : shutdown_wait (Some 30) = 30 * Second.
Proof.
  apply (shutdown_wait_bounds (World := Mock.World) Mock.notSuspended 30).
  - unfold int32_range. lia.
  - lia.
Defined.

(** The guest ignores both signals: all six round trips are made. *)
Lemma shutdown_round_trips_witness :
  let run := shutdown (Mock.container "") None unresponsive_guest in
  exists d,
    calls (snd run) = (calls unresponsive_guest ++ d)%list /\
    d `prefix_of` signals_script Mock.handle "c1" (10 * Second) ["TERM"; "KILL"] /\
    (length d <= 6)%nat /\
    Forall (fun sig => sig <> "") (dispatched d).
Proof.
  intros run.
  apply (shutdown_round_trips (Infra := Mock.infra) (Mock.container "") Mock.handle
           (Mock.session "") None unresponsive_guest (snd run) (fst run));
    reflexivity.
Defined.

(** The agent cannot be reached: kill makes two round trips, the second
    one the power-off. *)
Lemma kill_round_trips_witness :
  let run := kill Mock.notSuspended (Mock.container "") unreachable_agent in
  exists d tl,
    calls (snd run) = (calls unreachable_agent ++ d ++ tl)%list /\
    d `prefix_of` attempt_script Mock.handle "c1" (10 * Second) SIGKILL /\
    ((tl = [] /\ fst run = Ret None /\
      d = attempt_script Mock.handle "c1" (10 * Second) SIGKILL) \/
     tl = [PowerOff_call Mock.handle]) /\
    (length (d ++ tl) <= 4)%nat.
Proof.
  intros run.
  apply (kill_round_trips (Infra := Mock.infra) Mock.notSuspended
           (Mock.container "") Mock.handle unreachable_agent (snd run) (fst run));
    reflexivity.
Defined.

(** The guest powers off on TERM: stop makes three round trips and no
    power-off. *)
Lemma stop_round_trips_witness :
  let run := stop Mock.notSuspended (Mock.container "") None obedient_guest in
  exists d tl,
    calls (snd run) = (calls obedient_guest ++ d ++ tl)%list /\
    d `prefix_of` signals_script Mock.handle "c1" (10 * Second) ["TERM"; "KILL"] /\
    ((tl = [] /\ fst run = Ret None) \/ tl = [PowerOff_call Mock.handle]) /\
    (length (d ++ tl) <= 7)%nat.
Proof.
  intros run.
  apply (stop_round_trips (Infra := Mock.infra) Mock.notSuspended
           (Mock.container "") Mock.handle (Mock.session "") None
           obedient_guest (snd run) (fst run));
    reflexivity.
Defined.

(** The guest powers off on TERM: the nil result of shutdown comes from
    the wait. *)
Lemma shutdown_nil_observed_witness :
  exists v s0 w d0,
    vm (Mock.container "") = Some v /\
    calls s0 = (calls obedient_guest ++ d0)%list /\
    WaitForPowerState v (shutdown_wait None) powered_off (world s0) = (None, w) /\
    snd (shutdown (Mock.container "") None obedient_guest)
    = after s0 (WaitForPowerState_call v (shutdown_wait None) powered_off) w.
Proof.
  apply (shutdown_nil_observed (Infra := Mock.infra) (Mock.container "") None
           obedient_guest).
  reflexivity.
Defined.

(** The guest ignores both signals and the power-off task succeeds: the
    nil result of stop comes from the power-off. *)
Lemma stop_result_witness :
  let s := Mock.start_state [ok; ok; wait_times_out; ok; ok; wait_times_out; ok] in
  let run := stop Mock.notSuspended (Mock.container "") None s in
  exists s0 w d0,
    calls s0 = (calls s ++ d0)%list /\
    last_round_trip Mock.notSuspended Mock.handle (10 * Second) s0 w None (snd run).
Proof.
  intros s run.
  apply (stop_result (Infra := Mock.infra) Mock.notSuspended (Mock.container "")
           Mock.handle None s (snd run) None);
    reflexivity.
Defined.

(** The agent cannot be reached and the power-off task fails with another
    fault: the error of kill is that fault. *)
Lemma kill_result_witness :
  let fault := task_Error (OtherFault "TaskInProgress") "The operation is not allowed" in
  let s := Mock.start_state [Mock.answer_error (Some agent_unavailable);
                             Mock.answer_error (Some fault)] in
  let run := kill Mock.notSuspended (Mock.container "") s in
  exists s0 w d0,
    calls s0 = (calls s ++ d0)%list /\
    last_round_trip Mock.notSuspended Mock.handle (10 * Second) s0 w
                    (Some fault) (snd run).
Proof.
  intros fault s run.
  apply (kill_result (Infra := Mock.infra) Mock.notSuspended (Mock.container "")
           Mock.handle s (snd run) (Some fault));
    reflexivity.
Defined.

(** The power-on task fails: start returns its error after one round
    trip. *)
Lemma start_result_witness :
  let fault := task_Error (OtherFault "InsufficientResourcesFault") "no resources" in
  let s := Mock.start_state [Mock.answer_error (Some fault)] in
  (exists w, PowerOn Mock.handle (world s) = (Some fault, w) /\
             snd (start (Mock.container "") s) = after s (PowerOn_call Mock.handle) w) \/
  (exists w key keys detail a,
     PowerOn Mock.handle (world s) = (None, w) /\
     CalculateKeys (ExecConfig (Mock.container "")) "Sessions.c1.Started" ""
     = key :: keys /\
     WaitForKeyInExtraConfig Mock.handle key w
     = ((detail, a), world (snd (start (Mock.container "") s))) /\
     calls (snd (start (Mock.container "") s))
     = (calls s ++ [PowerOn_call Mock.handle;
                    WaitForKeyInExtraConfig_call Mock.handle key])%list /\
     match a with
     | Some e =>
         Error fault = "unable to wait for process launch status: " ++ Error e
     | None => detail <> "true" /\ Error fault = detail
     end).
Proof.
  intros fault s.
  apply (start_result (Infra := Mock.infra) (Codec := Mock.codec)
           (Mock.container "") Mock.handle s (snd (start (Mock.container "") s))
           (Some fault));
    reflexivity.
Defined.

(** Two snapshots of the same instance, one with a stale stop signal:
    after a refresh they are the same. *)
Lemma refresh_ignores_stale_fields_witness :
  fst (refresh (Mock.container "TERM")
               (Mock.start_state [Mock.answer_properties (inr fetched)]))
  = fst (refresh (Mock.container "KILL")
                 (Mock.start_state [Mock.answer_properties (inr fetched)])).
Proof.
  apply (refresh_ignores_stale_fields (Infra := Mock.infra) (Codec := Mock.codec)
           (Mock.container "TERM") (Mock.container "KILL") Mock.handle
           (Mock.start_state [Mock.answer_properties (inr fetched)]));
    reflexivity.
Defined.

(** A refresh with a blob of two entries builds what newBase builds. *)
Lemma refresh_builds_newBase_witness :
  fst (refresh (Mock.container "TERM")
               (Mock.start_state [Mock.answer_properties (inr fetched)]))
  = newBase (Some Mock.handle) (Some fetched_config) (Some (mo_Runtime fetched)).
Proof.
  assert (Hrun : refresh (Mock.container "TERM")
                         (Mock.start_state [Mock.answer_properties (inr fetched)])
                 = (fst (refresh (Mock.container "TERM")
                           (Mock.start_state [Mock.answer_properties (inr fetched)])),
                    (Ret None,
                     mkSt (Mock.mkWorld [] None)
                          [Properties_call Mock.handle ["config"; "runtime"]])))
    by reflexivity.
  destruct (refresh_builds_newBase (Infra := Mock.infra) (Codec := Mock.codec)
              _ _ _ _ Hrun)
    as (v & o & cfg & Hv & Ho & Hcfg & Hnew).
  injection Hv as <-. injection Ho as <-. injection Hcfg as <-.
  apply Hnew. left. discriminate.
Defined.

(** newBase for a fetched config: the configuration is the decoding of
    the two entries of its blob. *)
Example newBase_decodes_blob :
  ExecConfig (newBase (Some Mock.handle) (Some fetched_config) None)
  = {| ID := "c1"; Sessions := {[ "c1" := Mock.session "INT" ]} |}.
Proof. reflexivity. Qed.

(** The guest ignores both signals: the error of shutdown is the
    aggregate error, after the six round trips. *)
Lemma shutdown_error_result_witness :
  let err := errorString "failed to shutdown c1 via kill signals [TERM KILL]" in
  let run := shutdown (Mock.container "") None unresponsive_guest in
  (exists sig e s0,
     (sig = "TERM" \/ sig = SIGKILL) /\
     startGuestProgram (Mock.container "") "kill" sig s0 = (Ret (Some e), snd run) /\
     err = dispatch_error (Mock.container "") sig e) \/
  (exists s0 w,
     WaitForPowerState Mock.handle (10 * Second) powered_off (world s0) = (Some err, w) /\
     context_Err w = None /\
     snd run = after s0 (WaitForPowerState_call Mock.handle (10 * Second) powered_off) w) \/
  (err = exhausted_error (Mock.container "") ["TERM"; SIGKILL] /\
   calls (snd run)
   = (calls unresponsive_guest
      ++ signals_script Mock.handle "c1" (10 * Second) ["TERM"; SIGKILL])%list).
Proof.
  intros err run.
  apply (shutdown_error_result (Infra := Mock.infra) (Mock.container "") Mock.handle
           (Mock.session "") None unresponsive_guest (snd run) err);
    reflexivity.
Defined.

(** The agent cannot be reached: stop and kill are the same run. *)
Lemma stop_and_kill_without_agent_witness :
  stop Mock.notSuspended (Mock.container "") None unreachable_agent
  = kill Mock.notSuspended (Mock.container "") unreachable_agent.
Proof.
  destruct (stop_and_kill_without_agent (Infra := Mock.infra) Mock.notSuspended
              (Mock.container "") Mock.handle (Mock.session "") None
              unreachable_agent agent_unavailable (Mock.mkWorld [ok] None)
              eq_refl eq_refl eq_refl)
    as (Hstop & Hkill & _).
  rewrite Hstop, Hkill. reflexivity.
Defined.
